(** * CraveCraze: the media-intelligence dashboard of [cravecraze.py]

    A shallow embedding of the data-cleaning, filtering, aggregation and
    insight-generation code of the dashboard script, and the properties of
    it that the specification states.

    Modelling conventions.
    - A Python [str] is a [string]; the characters are bytes.  The case and
      white-space functions of [PyStr] are the ASCII ones; the properties of
      column names beyond ASCII are stated for any [str.strip] and
      [str.lower] ([clean_data_with]).
    - A pandas cell is a [cell]: a null (NaN/NaT), a number, a text or a
      timestamp.  Numbers are mathematical integers ([Z]); a timestamp is
      the number of nanoseconds since the epoch, as in [datetime64[ns]].
    - A raw [DataFrame] is the ordered list of its named columns.
    - [pd.to_datetime] and [pd.to_numeric] parse each text cell with a
      parser that is a parameter of the development; a cell the parser
      rejects raises, as both functions do by default ([errors='raise']).
    - The code after [clean_data] works on the rows of the cleaned table:
      a [Dataset] is the list of its [record]s.
    - Quotients are binary64 numbers (Rocq's primitive floats), and
      [f"{x:.1f}"] and [f"{x:,.0f}"] format the exact value of the float, as
      Python does.  Sums are sums of integers; they are the program's int64
      or float64 sums in the range that [in_exact_range] states.
    - [series.sort_values] is a stable sort here; pandas does not fix the
      order of equal values, and no property below depends on it.
    - [st.*] calls are collected, in order, in a list of [st_call]. *)

From Stdlib Require Import ZArith List Bool Ascii String Lia.
From Stdlib Require Import DecimalString Sorted Permutation RelationClasses.
From Stdlib Require OrdersEx Floats.
Import ListNotations.

Open Scope string_scope.
Open Scope Z_scope.

(** ** Python strings *)

Module PyStr.

(** [str.isspace] on an ASCII character: TAB..CR, FS..US and the space. *)
Definition is_space (c : ascii) : bool :=
  let n := N_of_ascii c in
  ((9 <=? n) && (n <=? 13) || (28 <=? n) && (n <=? 32))%N.

Fixpoint lstrip (s : string) : string :=
  match s with
  | EmptyString => EmptyString
  | String c s' => if is_space c then lstrip s' else s
  end.

Fixpoint rstrip (s : string) : string :=
  match s with
  | EmptyString => EmptyString
  | String c s' =>
      match rstrip s' with
      | EmptyString => if is_space c then EmptyString else String c EmptyString
      | r => String c r
      end
  end.

(** [s.strip()] *)
Definition strip (s : string) : string := rstrip (lstrip s).

Definition lower_char (c : ascii) : ascii :=
  let n := N_of_ascii c in
  if ((65 <=? n) && (n <=? 90))%N then ascii_of_N (n + 32) else c.

Fixpoint map_chars (f : ascii -> ascii) (s : string) : string :=
  match s with
  | EmptyString => EmptyString
  | String c s' => String (f c) (map_chars f s')
  end.

(** [s.lower()] *)
Definition lower (s : string) : string := map_chars lower_char s.

(** [s.replace(a, b)] for single characters [a] and [b]. *)
Definition replace (a b : ascii) (s : string) : string :=
  map_chars (fun c => if Ascii.eqb c a then b else c) s.

(** [sep.join(l)] *)
Definition join (sep : string) (l : list string) : string :=
  String.concat sep l.

(** [x in l] for a list of strings. *)
Definition mem (x : string) (l : list string) : bool :=
  existsb (String.eqb x) l.

(** [str(n)] for an integer. *)
Definition of_Z (z : Z) : string := NilZero.string_of_int (Z.to_int z).

(** [t] occurs in [s] as a contiguous piece. *)
Definition occurs_in (t s : string) : Prop :=
  exists pre post, s = pre ++ t ++ post.

End PyStr.

(** ** pandas values *)

Inductive cell : Type :=
| Null                (* NaN, None, NaT *)
| Num (z : Z)         (* a number *)
| Str (s : string)    (* a text *)
| Ts (t : Z).         (* a timestamp, nanoseconds since 1970-01-01 *)

Definition Series := list cell.

(** A raw table: the columns in order, each with its name. *)
Definition DataFrame := list (string * Series).

Definition columns (df : DataFrame) : list string := map fst df.

(** What [df[name]] evaluates to. *)
Inductive selection : Type :=
| KeyError
| OneColumn (s : Series)
| Frame (cols : list Series).   (* several columns carry the name *)

Definition getitem (df : DataFrame) (name : string) : selection :=
  match map snd (filter (fun c => String.eqb (fst c) name) df) with
  | [] => KeyError
  | [s] => OneColumn s
  | cols => Frame cols
  end.

(** [df[name] = s] for a column that exists. *)
Definition setitem (df : DataFrame) (name : string) (s : Series) : DataFrame :=
  map (fun c => if String.eqb (fst c) name then (fst c, s) else c) df.

(** ** Exceptions *)

Inductive exn : Type :=
| DateParseError (s : string)      (* pd.to_datetime could not parse [s] *)
| NumericParseError (s : string)   (* pd.to_numeric could not parse [s] *)
| NotOneDimensional                (* the argument is a frame, not a series *)
| NoSuchColumn (name : string)
| TypeError (what : string)
| AttributeError (what : string)
| ValueError (what : string).

Inductive result (A : Type) : Type :=
| Ok (a : A)
| Raise (e : exn).
Arguments Ok {A} a.
Arguments Raise {A} e.

Definition bind {A B : Type} (m : result A) (k : A -> result B) : result B :=
  match m with
  | Ok a => k a
  | Raise e => Raise e
  end.

Notation "x <- m ;; k" := (bind m (fun x => k))
  (at level 61, m at next level, right associativity).

Fixpoint mapM {A B : Type} (f : A -> result B) (l : list A) : result (list B) :=
  match l with
  | [] => Ok []
  | a :: l' => b <- f a ;; bs <- mapM f l' ;; Ok (b :: bs)
  end.

(** ** Streamlit calls *)

Inductive figure : Type :=
| px_pie (values : list Z) (names : list string)
| px_line (x : list Z) (y : list Z)
| px_bar (x : list string) (y : list Z).

Inductive st_call : Type :=
| st_title (s : string)
| st_write (s : string)
| st_error (s : string)
| st_error_processing (e : exn)   (* st.error(f"Error processing data: {e}. ...") *)
| st_success (s : string)
| st_sidebar_header (s : string)
| st_sidebar_error (s : string)
| st_warning (s : string)
| st_info (s : string)
| st_header (s : string)
| st_subheader (s : string)
| st_markdown (s : string)
| st_plotly_chart (f : figure)
| uncaught (e : exn).             (* the script run ends with this exception *)

(** ** Data cleaning: [clean_data] *)

Definition normalize_column (col : string) : string :=
  PyStr.replace " "%char "_"%char (PyStr.lower (PyStr.strip col)).

Definition rename_columns (df : DataFrame) : DataFrame :=
  map (fun c => (normalize_column (fst c), snd c)) df.

Definition required_columns : list string :=
  ["date"; "platform"; "sentiment"; "location"; "engagements"; "media_type"].

Definition missing_columns (df : DataFrame) : list string :=
  filter (fun col => negb (PyStr.mem col (columns df))) required_columns.

Definition missing_message (missing : list string) : string :=
  "Error: The following required columns are missing from your CSV file: "
  ++ PyStr.join ", " missing.

(** [series.fillna(0)] *)
Definition fillna0 (s : Series) : Series :=
  map (fun c => match c with Null => Num 0 | _ => c end) s.

Section Cleaning.

(** The text parsers of [pd.to_datetime] and [pd.to_numeric]: [None] is a
    text the function cannot parse. *)
Variable parse_datetime : string -> option Z.
Variable parse_numeric : string -> option Z.

Definition to_datetime_cell (c : cell) : result cell :=
  match c with
  | Null => Ok Null
  | Num z => Ok (Ts z)
  | Ts t => Ok (Ts t)
  | Str s =>
      match parse_datetime s with
      | Some t => Ok (Ts t)
      | None => Raise (DateParseError s)
      end
  end.

Definition to_numeric_cell (c : cell) : result cell :=
  match c with
  | Null => Ok Null
  | Num z => Ok (Num z)
  | Ts t => Ok (Num t)
  | Str s =>
      match parse_numeric s with
      | Some z => Ok (Num z)
      | None => Raise (NumericParseError s)
      end
  end.

(** [pd.to_datetime(df[name])] *)
Definition to_datetime (sel : selection) : result Series :=
  match sel with
  | OneColumn s => mapM to_datetime_cell s
  | Frame _ => Raise NotOneDimensional
  | KeyError => Raise (NoSuchColumn "date")
  end.

(** [pd.to_numeric(df[name])] *)
Definition to_numeric (sel : selection) : result Series :=
  match sel with
  | OneColumn s => mapM to_numeric_cell s
  | Frame _ => Raise NotOneDimensional
  | KeyError => Raise (NoSuchColumn "engagements")
  end.

(** The body of the [try] block. *)
Definition convert_types (df : DataFrame) : result DataFrame :=
  d <- to_datetime (getitem df "date") ;;
  let df1 := setitem df "date" d in
  e <- to_numeric (getitem df1 "engagements") ;;
  Ok (setitem df1 "engagements" (fillna0 e)).

(** [clean_data(df)]: the value returned ([None] for Python's [None]) and
    the messages shown on the way. *)
Definition clean_data (df : DataFrame) : option DataFrame * list st_call :=
  let df := rename_columns df in
  match missing_columns df with
  | (_ :: _) as missing => (None, [st_error (missing_message missing)])
  | [] =>
      match convert_types df with
      | Ok df' => (Some df', [])
      | Raise e => (None, [st_error_processing e])
      end
  end.

End Cleaning.

(** *** Column names beyond ASCII

    [PyStr.strip] and [PyStr.lower] are Python's [str.strip] and [str.lower]
    on ASCII text.  On other text Python strips the white space of Unicode
    and lowers its letters; [clean_data_with] is [clean_data] with the two
    functions as parameters, so that what is proved of it holds for Python's
    functions on every column name.  ([str.replace(' ', '_')] is the same on
    UTF-8 bytes and on characters.) *)

Section AnyColumnNames.

Variable py_strip : string -> string.   (* [str.strip] *)
Variable py_lower : string -> string.   (* [str.lower] *)
Variable parse_datetime : string -> option Z.
Variable parse_numeric : string -> option Z.

Definition normalize_column_with (col : string) : string :=
  PyStr.replace " "%char "_"%char (py_lower (py_strip col)).

Definition rename_columns_with (df : DataFrame) : DataFrame :=
  map (fun c => (normalize_column_with (fst c), snd c)) df.

Definition clean_data_with (df : DataFrame) : option DataFrame * list st_call :=
  let df := rename_columns_with df in
  match missing_columns df with
  | (_ :: _) as missing => (None, [st_error (missing_message missing)])
  | [] =>
      match convert_types parse_datetime parse_numeric df with
      | Ok df' => (Some df', [])
      | Raise e => (None, [st_error_processing e])
      end
  end.

End AnyColumnNames.

(** ** Records of a cleaned table *)

(** One row of a cleaned table.  [date] is the timestamp of the row (or
    [None] for NaT), a category is a text (or [None] for a null). *)
Record record : Type := mkRecord {
  date : option Z;
  platform : option string;
  sentiment : option string;
  location : option string;
  engagements : Z;
  media_type : option string
}.

(** The rows of a table, in order: what the code after [clean_data] calls
    a DataFrame. *)
Definition Dataset := list record.

Definition as_timestamp (c : cell) : option Z :=
  match c with Ts t => Some t | _ => None end.

(** A category cell; a number in a category column is carried by its
    decimal text. *)
Definition as_category (c : cell) : option string :=
  match c with
  | Null => None
  | Str s => Some s
  | Num z => Some (PyStr.of_Z z)
  | Ts t => Some (PyStr.of_Z t)
  end.

Definition as_number (c : cell) : Z :=
  match c with Num z => z | _ => 0 end.

(** The cells of a column.  Of several columns of one name the first is
    read; the script fails before it uses the cells of such a column (see
    [category_options] and [dashboard]). *)
Definition column (df : DataFrame) (name : string) : Series :=
  match getitem df name with
  | OneColumn s => s
  | Frame (s :: _) => s
  | _ => []
  end.

Definition n_rows (df : DataFrame) : nat :=
  match df with
  | [] => 0%nat
  | c :: _ => List.length (snd c)
  end.

Definition row_of (df : DataFrame) (i : nat) : record :=
  let at_ name := nth i (column df name) Null in
  {| date := as_timestamp (at_ "date");
     platform := as_category (at_ "platform");
     sentiment := as_category (at_ "sentiment");
     location := as_category (at_ "location");
     engagements := as_number (at_ "engagements");
     media_type := as_category (at_ "media_type") |}.

Definition rows_of (df : DataFrame) : Dataset :=
  map (row_of df) (seq 0 (n_rows df)).

(** ** pandas aggregation *)

(** [series.dropna()] *)
Fixpoint dropna {A : Type} (l : list (option A)) : list A :=
  match l with
  | [] => []
  | None :: l' => dropna l'
  | Some a :: l' => a :: dropna l'
  end.

(** [series.unique()] on texts: the distinct values in order of first
    appearance. *)
Fixpoint unique (l : list string) : list string :=
  match l with
  | [] => []
  | x :: l' => x :: filter (fun y => negb (String.eqb y x)) (unique l')
  end.

Definition count (x : string) (l : list string) : Z :=
  Z.of_nat (List.length (filter (String.eqb x) l)).

(** An aggregate: keys with their values, in the order of the result. *)
Definition Aggregate (K : Type) := list (K * Z).

Definition keys {K : Type} (a : Aggregate K) : list K := map fst a.
Definition values {K : Type} (a : Aggregate K) : list Z := map snd a.

(** [series.sum()].  The program adds int64 or float64 numbers; the sum of
    the integers is its result while no int64 sum wraps and no float64 sum
    rounds: see [in_exact_range]. *)
Definition sum (l : list Z) : Z := fold_right Z.add 0 l.

(** The engagements of a dataset are in the exact range when their
    absolute values add up to at most 2^53.  The [engagements] column of a
    cleaned table is int64, or float64 as soon as one of its cells was empty;
    in this range no int64 sum of engagements wraps and every float64 sum of
    them is exact in whatever order it is taken, so that the sums of the
    model are the sums of the program.  The properties that depend on the
    value of a sum have this hypothesis. *)
Definition in_exact_range (df : Dataset) : Prop :=
  sum (map (fun r => Z.abs (engagements r)) df) <= 2 ^ 53.

(** The sum of two int64 numbers as numpy computes it: modulo 2^64, in
    the range from -2^63 to 2^63 - 1. *)
Definition int64_add (a b : Z) : Z := (a + b + 2 ^ 63) mod 2 ^ 64 - 2 ^ 63.

(** The int64 sum of a column.  (Addition modulo 2^64 does not depend on the
    order in which the cells are taken.) *)
Definition sum_int64 (l : list Z) : Z := fold_left int64_add l 0.

(** [series.sort_values(ascending=False)]: a stable sort, greatest value
    first.  (pandas does not fix the order of equal values; no property below
    depends on it.) *)
Fixpoint insert_desc {K : Type} (x : K * Z) (l : Aggregate K) : Aggregate K :=
  match l with
  | [] => [x]
  | y :: l' => if snd y <=? snd x then x :: l else y :: insert_desc x l'
  end.

Fixpoint sort_values_desc {K : Type} (l : Aggregate K) : Aggregate K :=
  match l with
  | [] => []
  | x :: l' => insert_desc x (sort_values_desc l')
  end.

(** [series.head(n)] *)
Definition head {K : Type} (n : nat) (a : Aggregate K) : Aggregate K := firstn n a.

(** [series.nlargest(n)] *)
Definition nlargest {K : Type} (n : nat) (a : Aggregate K) : Aggregate K :=
  firstn n (sort_values_desc a).

(** [series.value_counts()]: null values dropped, most frequent first. *)
Definition value_counts (col : list (option string)) : Aggregate string :=
  let vals := dropna col in
  sort_values_desc (map (fun k => (k, count k vals)) (unique vals)).

(** [df.groupby(key)['engagements'].sum()]: rows with a null key dropped,
    one entry per key, keys ascending. *)
Section GroupBy.

Context {K : Type}.
Variable cmp : K -> K -> comparison.

Fixpoint group_add (k : K) (v : Z) (acc : Aggregate K) : Aggregate K :=
  match acc with
  | [] => [(k, v)]
  | (k', v') :: acc' =>
      match cmp k k' with
      | Eq => (k', v' + v) :: acc'
      | Lt => (k, v) :: acc
      | Gt => (k', v') :: group_add k v acc'
      end
  end.

Fixpoint groupby_sum (key : record -> option K) (df : Dataset) : Aggregate K :=
  match df with
  | [] => []
  | r :: df' =>
      match key r with
      | None => groupby_sum key df'
      | Some k => group_add k (engagements r) (groupby_sum key df')
      end
  end.

End GroupBy.

(** The summed engagements of the records whose key is [k]. *)
Definition total_of {K : Type} (cmp : K -> K -> comparison)
           (key : record -> option K) (k : K) (df : Dataset) : Z :=
  sum (map engagements
         (filter (fun r => match key r with
                           | Some k' => match cmp k' k with Eq => true | _ => false end
                           | None => false
                           end) df)).

(** The strict order of a comparison function. *)
Definition lt_by {K : Type} (cmp : K -> K -> comparison) (a b : K) : Prop :=
  cmp a b = Lt.

(** An aggregate in descending order of value. *)
Definition desc {K : Type} (a b : K * Z) : Prop := snd b <= snd a.

(** [series.idxmax()] with its value: the first entry of greatest value;
    [None] for the empty series, on which the script never calls it. *)
Fixpoint idxmax {K : Type} (a : Aggregate K) : option (K * Z) :=
  match a with
  | [] => None
  | x :: a' =>
      match idxmax a' with
      | None => Some x
      | Some m => if snd m <=? snd x then Some x else Some m
      end
  end.

(** [series.iloc[0]] and [series.iloc[-1]] of a non-empty series. *)
Definition iloc_first (l : list Z) : Z := hd 0 l.
Definition iloc_last (l : list Z) : Z := last l 0.

(** ** Number and date formatting *)

(** [num / den] rounded to the nearest integer, ties to the even one
    ([den > 0]). *)
Definition round_half_even (num den : Z) : Z :=
  let q := num / den in
  let r := num mod den in
  if 2 * r <? den then q
  else if den <? 2 * r then q + 1
  else if Z.even q then q else q + 1.

Fixpoint group3 (digits : list ascii) : list ascii :=
  match digits with
  | a :: b :: c :: (_ :: _) as rest => a :: b :: c :: ","%char :: group3 rest
  | _ => digits
  end.

(** The digits of a natural number with thousands separators. *)
Definition with_commas (n : Z) : string :=
  string_of_list_ascii
    (rev (group3 (rev (list_ascii_of_string (PyStr.of_Z n))))).

(** The binary64 number nearest to an integer (ties to even): what numpy
    makes of an int64 operand of a true division. *)
Definition float_of_Z (z : Z) : PrimFloat.float :=
  FloatOps.SF2Prim
    (SpecFloat.binary_normalize FloatOps.prec FloatOps.emax z 0 false).

(** [f"{x:.<d>f}"] for a binary64 [x]: the exact value of [x] times
    [scale] = 10^d, rounded to the nearest integer (ties to even), is shown
    by [show]; the sign is that of [x], of a zero too. *)
Definition format_fixed (show : Z -> string) (scale : Z) (x : PrimFloat.float)
  : string :=
  match FloatOps.Prim2SF x with
  | SpecFloat.S754_nan => "nan"
  | SpecFloat.S754_infinity s => (if s then "-" else "") ++ "inf"
  | SpecFloat.S754_zero s => (if s then "-" else "") ++ show 0
  | SpecFloat.S754_finite s m e =>
      let num := Zpos m * scale in
      let t := if 0 <=? e then num * 2 ^ e
               else round_half_even num (2 ^ (- e)) in
      (if s then "-" else "") ++ show t
  end.

(** The digits of a number of tenths. *)
Definition show_tenths (t : Z) : string :=
  PyStr.of_Z (t / 10) ++ "." ++ PyStr.of_Z (t mod 10).

(** The binary64 quotient [num / den] of two integers. *)
Definition true_divide (num den : Z) : PrimFloat.float :=
  PrimFloat.div (float_of_Z num) (float_of_Z den).

(** [f"{num/den:,.0f}"] *)
Definition format_0f_commas (num den : Z) : string :=
  format_fixed with_commas 1 (true_divide num den).

(** [(num / den) * 100] *)
Definition percentage (num den : Z) : PrimFloat.float :=
  PrimFloat.mul (true_divide num den) (float_of_Z 100).

(** [f"{(num/den)*100:.1f}"]; a zero denominator gives numpy's nan or inf. *)
Definition format_pct_1f (num den : Z) : string :=
  format_fixed show_tenths 10 (percentage num den).

Definition ns_per_day : Z := 86400000000000.

(** [series.dt.date]: the calendar day of a timestamp, as a day number. *)
Definition dt_date (t : Z) : Z := t / ns_per_day.

(** Year, month and day of a day number (proleptic Gregorian calendar). *)
Definition civil_of_days (days : Z) : Z * Z * Z :=
  let z := days + 719468 in
  let era := z / 146097 in
  let doe := z - era * 146097 in
  let yoe := (doe - doe / 1460 + doe / 36524 - doe / 146096) / 365 in
  let doy := doe - (365 * yoe + yoe / 4 - yoe / 100) in
  let mp := (5 * doy + 2) / 153 in
  let d := doy - (153 * mp + 2) / 5 + 1 in
  let m := if mp <? 10 then mp + 3 else mp - 9 in
  let y := yoe + era * 400 + (if m <=? 2 then 1 else 0) in
  (y, m, d).

Definition month_name (m : Z) : string :=
  nth (Z.to_nat (m - 1))
    ["January"; "February"; "March"; "April"; "May"; "June"; "July";
     "August"; "September"; "October"; "November"; "December"] "".

Definition two_digits (n : Z) : string :=
  (if n <? 10 then "0" else "") ++ PyStr.of_Z n.

(** [ts.strftime('%B %d, %Y')] *)
Definition strftime_BdY (t : Z) : string :=
  let '(y, m, d) := civil_of_days (dt_date t) in
  month_name m ++ " " ++ two_digits d ++ ", " ++ PyStr.of_Z y.

(** ** Insight generation *)

Definition dominant_sentiment_line (dominant pct : string) : string :=
  "**Dominant Sentiment:** The audience reception is largely **" ++ dominant
  ++ "**, accounting for " ++ pct ++ "% of all posts.".

Definition data_anomaly_line (minority : string) : string :=
  "**Data Anomaly:** The **" ++ minority
  ++ "** sentiment is a significant minority, suggesting a need to investigate specific posts driving this feeling.".

Definition strategic_trend_line : string :=
  "**Strategic Trend:** The current sentiment mix indicates the overall tone of the content. Efforts should focus on increasing positive interactions.".

Definition get_sentiment_insights (df : Dataset) : list string :=
  match df with
  | [] => []
  | _ :: _ =>
      let sentiment_counts := value_counts (map sentiment df) in
      let sorted_sentiments := sort_values_desc sentiment_counts in
      let total_posts := Z.of_nat (List.length df) in
      (match sorted_sentiments with
       | (dominant, n) :: _ =>
           [dominant_sentiment_line dominant (format_pct_1f n total_posts)]
       | [] => []
       end)
      ++ (if (2 <? List.length sorted_sentiments)%nat
          then [data_anomaly_line (last (keys sorted_sentiments) "")]
          else [])
      ++ [strategic_trend_line]
  end.

Definition peak_engagement_line (peak : string) : string :=
  "**Peak Engagement:** The highest engagement was on **" ++ peak
  ++ "**, suggesting a highly successful post or event that should be analyzed.".

Definition emerging_trend_line (direction : string) : string :=
  "**Emerging Trend:** The engagement trend shows a general **" ++ direction
  ++ "** trajectory.".

Definition performance_context_line (average : string) : string :=
  "**Performance Context:** The average engagement per day is **" ++ average
  ++ "**, serving as a baseline for future content.".

(** [df.groupby('date')['engagements'].sum()] *)
Definition engagement_by_date (df : Dataset) : Aggregate Z :=
  groupby_sum Z.compare date df.

Definition trend_direction (series : Aggregate Z) : string :=
  if iloc_first (values series) <? iloc_last (values series)
  then "upward" else "stable or declining".

Definition get_engagement_trend_insights (df : Dataset) : list string :=
  if (List.length df <? 2)%nat then []
  else
    let series := engagement_by_date df in
    match idxmax series with
    | None => []
    | Some (peak_date, _) =>
        [ peak_engagement_line (strftime_BdY peak_date);
          emerging_trend_line (trend_direction series);
          performance_context_line
            (format_0f_commas (sum (values series))
                              (Z.of_nat (List.length series))) ]
    end.

Definition key_finding_line (top pct : string) : string :=
  "**Key Finding:** **" ++ top
  ++ "** is the primary engagement driver, accounting for **" ++ pct
  ++ "%** of the total.".

Definition performance_gap_line : string :=
  "**Performance Gap:** There is a clear performance difference between platforms, highlighting where resources are most effective.".

Definition strategic_implication_line : string :=
  "**Strategic Implication:** Content and ad spend should be prioritized towards the most engaging platforms.".

(** [df.groupby('platform')['engagements'].sum().sort_values(ascending=False)] *)
Definition platform_engagements (df : Dataset) : Aggregate string :=
  sort_values_desc (groupby_sum String.compare platform df).

Definition get_platform_insights (df : Dataset) : list string :=
  match df with
  | [] => []
  | _ :: _ =>
      let pe := platform_engagements df in
      let total_engagements := sum (values pe) in
      (match pe with
       | (top_platform, v) :: _ =>
           [key_finding_line top_platform (format_pct_1f v total_engagements)]
       | [] => []
       end)
      ++ (if (1 <? List.length pe)%nat then [performance_gap_line] else [])
      ++ [strategic_implication_line]
  end.

Definition dominant_format_line (top : string) : string :=
  "**Dominant Format:** The content strategy is heavily reliant on **" ++ top
  ++ "**.".

Definition untapped_potential_line (least : string) : string :=
  "**Untapped Potential:** The least used format, **" ++ least
  ++ "**, could be an area for growth and audience diversification.".

Definition content_mix_line : string :=
  "**Content Mix:** The visual balance suggests the diversity of the content portfolio. A balanced mix is key to reaching different audience segments.".

Definition get_media_type_insights (df : Dataset) : list string :=
  match df with
  | [] => []
  | _ :: _ =>
      let media_type_counts :=
        sort_values_desc (value_counts (map media_type df)) in
      (match media_type_counts with
       | (top, _) :: _ => [dominant_format_line top]
       | [] => []
       end)
      ++ (if (1 <? List.length media_type_counts)%nat
          then [untapped_potential_line (last (keys media_type_counts) "")]
          else [])
      ++ [content_mix_line]
  end.

Definition primary_market_line (top : string) : string :=
  "**Primary Market:** Engagement is heavily concentrated in **" ++ top
  ++ "**.".

Definition audience_concentration_line : string :=
  "**Audience Concentration:** A noticeable drop-off in engagement after the top location indicates a hyper-concentrated audience.".

Definition geo_targeting_line : string :=
  "**Geo-Targeting Opportunity:** The top locations are clear candidates for geo-targeted campaigns and localized content.".

Definition isnull {A : Type} (v : option A) : bool :=
  match v with None => true | Some _ => false end.

(** [df.groupby('location')['engagements'].sum()] *)
Definition engagement_by_location (df : Dataset) : Aggregate string :=
  groupby_sum String.compare location df.

(** The aggregate of [get_location_insights]:
    [....sort_values(ascending=False).head(5)] *)
Definition top_locations (df : Dataset) : Aggregate string :=
  head 5 (sort_values_desc (engagement_by_location df)).

(** A [record] always has its [location] field, so the test
    ['location' not in df.columns] is false here. *)
Definition get_location_insights (df : Dataset) : list string :=
  match df with
  | [] => []
  | _ :: _ =>
      if forallb (fun r => isnull (location r)) df then []
      else
        let le := top_locations df in
        (match le with
         | (top, _) :: _ => [primary_market_line top]
         | [] => []
         end)
        ++ (if (1 <? List.length le)%nat then [audience_concentration_line] else [])
        ++ [geo_targeting_line]
  end.

(** ** Filtering *)

(** The sidebar controls: the two dates are day numbers, a select box
    holds one of its options (a text, or the null of a column). *)
Record widgets : Type := mkWidgets {
  start_date : Z;
  end_date : Z;
  selected_platform : option string;
  selected_sentiment : option string;
  selected_media_type : option string
}.

(** [(df['date'].dt.date >= start_date) & (df['date'].dt.date <= end_date)]
    on one row; a comparison with NaT is false. *)
Definition in_date_range (start_ end_ : Z) (r : record) : bool :=
  match date r with
  | Some t => (start_ <=? dt_date t) && (dt_date t <=? end_)
  | None => false
  end.

(** [column == selected] on one row; a null equals nothing. *)
Definition cat_eq (v selected : option string) : bool :=
  match v, selected with
  | Some a, Some b => String.eqb a b
  | _, _ => false
  end.

(** [selected != 'All'] *)
Definition not_All (selected : option string) : bool :=
  match selected with
  | Some s => negb (String.eqb s "All")
  | None => true
  end.

Definition filtered_df (cleaned_df : Dataset) (w : widgets) : Dataset :=
  let f0 := filter (in_date_range (start_date w) (end_date w)) cleaned_df in
  let f1 := if not_All (selected_platform w)
            then filter (fun r => cat_eq (platform r) (selected_platform w)) f0
            else f0 in
  let f2 := if not_All (selected_sentiment w)
            then filter (fun r => cat_eq (sentiment r) (selected_sentiment w)) f1
            else f1 in
  if not_All (selected_media_type w)
  then filter (fun r => cat_eq (media_type r) (selected_media_type w)) f2
  else f2.

(** The filter in the words of the specification: a record is kept when
    its date is in the range and each constraint is unset or equal to the
    record's category.  The code has no separate "unset" value: a select box
    that holds ['All'] is the unset constraint. *)
Definition unset (selected : option string) : bool := negb (not_All selected).

Definition satisfies (selected v : option string) : bool :=
  unset selected || cat_eq v selected.

Definition matches (w : widgets) (r : record) : bool :=
  in_date_range (start_date w) (end_date w) r
  && satisfies (selected_platform w) (platform r)
  && satisfies (selected_sentiment w) (sentiment r)
  && satisfies (selected_media_type w) (media_type r).

(** ** The script *)

(** [sorted(l)] on texts. *)
Fixpoint insert_sorted (x : string) (l : list string) : list string :=
  match l with
  | [] => [x]
  | y :: l' => if String.leb x y then x :: l else y :: insert_sorted x l'
  end.

Definition sorted (l : list string) : list string :=
  fold_right insert_sorted [] l.

(** [['All'] + sorted(column.unique().tolist())]: ordering a text against
    the float NaN raises. *)
Definition select_options (col : list (option string))
  : result (list (option string)) :=
  match unique (dropna col), existsb isnull col with
  | _ :: _, true =>
      Raise (TypeError "'<' not supported between instances of 'str' and 'float'")
  | [], true => Ok [Some "All"; None]
  | texts, false => Ok (Some "All" :: map Some (sorted texts))
  end.

(** The options of a select box, from [cleaned_df[name].unique()]: a frame
    (several columns of that name) has no [unique]. *)
Definition category_options (cleaned_df : DataFrame) (name : string)
  : result (list (option string)) :=
  match getitem cleaned_df name with
  | OneColumn s => select_options (map as_category s)
  | Frame _ => Raise (AttributeError "'DataFrame' object has no attribute 'unique'")
  | KeyError => Raise (NoSuchColumn name)
  end.

Definition is_frame (df : DataFrame) (name : string) : bool :=
  match getitem df name with
  | Frame _ => true
  | _ => false
  end.

Definition markdown_items (insights : list string) : list st_call :=
  map (fun insight => st_markdown ("- " ++ insight)) insights.

(** The chart of the top locations:
    [filtered_df.groupby('location')['engagements'].sum().nlargest(5)] *)
Definition location_engagements (df : Dataset) : Aggregate string :=
  nlargest 5 (engagement_by_location df).

(** The [else] branch of [if filtered_df.empty].  [one_location] tells
    that the table has one [location] column; with several,
    [groupby('location')] raises. *)
Definition dashboard (one_location : bool) (df : Dataset) : list st_call :=
  let sentiment_counts := value_counts (map sentiment df) in
  let by_date := engagement_by_date df in
  let by_platform := platform_engagements df in
  let media_type_counts := value_counts (map media_type df) in
  let by_location := location_engagements df in
  [st_header "Visualizations & Insights"]
  ++ [st_subheader "Sentiment Breakdown";
      st_plotly_chart (px_pie (values sentiment_counts) (keys sentiment_counts));
      st_markdown "#### Key Insights"]
  ++ markdown_items (get_sentiment_insights df)
  ++ [st_subheader "Engagement Trend Over Time";
      st_plotly_chart (px_line (keys by_date) (values by_date));
      st_markdown "#### Key Insights"]
  ++ markdown_items (get_engagement_trend_insights df)
  ++ [st_subheader "Engagements by Platform";
      st_plotly_chart (px_bar (keys by_platform) (values by_platform));
      st_markdown "#### Key Insights"]
  ++ markdown_items (get_platform_insights df)
  ++ [st_subheader "Media Type Mix";
      st_plotly_chart (px_pie (values media_type_counts) (keys media_type_counts));
      st_markdown "#### Key Insights"]
  ++ markdown_items (get_media_type_insights df)
  ++ [st_subheader "Top 5 Locations by Engagement"]
  ++ if one_location then
       match by_location with
       | _ :: _ =>
           [st_plotly_chart (px_bar (keys by_location) (values by_location));
            st_markdown "#### Key Insights"]
           ++ markdown_items (get_location_insights df)
       | [] => [st_info "Not enough location data to display this chart."]
       end
     else [uncaught (ValueError "Grouper for 'location' not 1-dimensional")].

(** The part of the script under [if cleaned_df is not None].  The two
    [st.sidebar.date_input] calls are configured with the least and the
    greatest date of the table; what Streamlit does with them (for a table
    without any date, say) is not modelled, the dates picked are in [w]. *)
Definition render (cleaned_df : DataFrame) (w : widgets) : list st_call :=
  [st_success "CSV file uploaded and processed successfully!";
   st_sidebar_header "Filter Data"]
  ++ if end_date w <? start_date w
     then [st_sidebar_error "Error: End date must be after start date."]
     else
       match
         _ <- category_options cleaned_df "platform" ;;
         _ <- category_options cleaned_df "sentiment" ;;
         category_options cleaned_df "media_type"
       with
       | Raise e => [uncaught e]
       | Ok _ =>
           match filtered_df (rows_of cleaned_df) w with
           | [] => [st_warning "No data available for the selected filters. Please adjust your filter settings."]
           | (_ :: _) as fdf =>
               dashboard (negb (is_frame cleaned_df "location")) fdf
           end
       end.

(** The calls before the file uploader. *)
Definition preamble : list st_call :=
  [st_title "🌸 Interactive Media Intelligence Dashboard";
   st_write "Upload your CSV file to visualize and analyze media performance."].

Section Script.

Variable parse_datetime : string -> option Z.
Variable parse_numeric : string -> option Z.

(** One run of the script: [uploaded_file] is the table read from the
    uploaded CSV file, or [None] while nothing is uploaded.  The
    configuration of the widgets is not modelled; their values are [w]. *)
Definition script (uploaded_file : option DataFrame) (w : widgets)
  : list st_call :=
  preamble
  ++ match uploaded_file with
     | Some df =>
         let '(cleaned_df, shown) := clean_data parse_datetime parse_numeric df in
         shown
         ++ match cleaned_df with
            | Some cdf => render cdf w
            | None => []
            end
     | None => [st_info "Awaiting CSV file upload."]
     end.

End Script.

(** ** Two concrete parsers

    Instances of the parsers for examples: dates written [YYYY-MM-DD] and
    integers written in decimal. *)

Definition digit_of (c : ascii) : option Z :=
  let n := Z.of_N (N_of_ascii c) in
  if (48 <=? n) && (n <=? 57) then Some (n - 48) else None.

Fixpoint digits_value (acc : Z) (s : string) : option Z :=
  match s with
  | EmptyString => Some acc
  | String c s' =>
      match digit_of c with
      | Some d => digits_value (10 * acc + d) s'
      | None => None
      end
  end.

Definition natural_of_string (s : string) : option Z :=
  match s with
  | EmptyString => None
  | _ => digits_value 0 s
  end.

Definition decimal_integer (s : string) : option Z :=
  match s with
  | String "-"%char s' => option_map Z.opp (natural_of_string s')
  | _ => natural_of_string s
  end.

Definition days_of_civil (y m d : Z) : Z :=
  let y := if m <=? 2 then y - 1 else y in
  let era := y / 400 in
  let yoe := y - era * 400 in
  let mp := if 2 <? m then m - 3 else m + 9 in
  let doy := (153 * mp + 2) / 5 + d - 1 in
  let doe := yoe * 365 + yoe / 4 - yoe / 100 + doy in
  era * 146097 + doe - 719468.

Definition iso_date (s : string) : option Z :=
  match natural_of_string (substring 0 4 s),
        natural_of_string (substring 5 2 s),
        natural_of_string (substring 8 2 s) with
  | Some y, Some m, Some d =>
      let n := days_of_civil y m d in
      if (String.length s =? 10)%nat
         && String.eqb (substring 4 1 s) "-"
         && String.eqb (substring 7 1 s) "-"
         && (let '(y', m', d') := civil_of_days n in
             (y' =? y) && (m' =? m) && (d' =? d))
      then Some (n * ns_per_day)
      else None
  | _, _, _ => None
  end.

(** ** Example tables *)

Definition table_of (dates platforms sentiments locations engs media : Series)
  : DataFrame :=
  [("Date", dates); ("Platform", platforms); ("Sentiment", sentiments);
   ("Location", locations); ("Engagements", engs); ("Media Type", media)].

(** The two rows of the specification's scenario. *)
Definition example_table : DataFrame :=
  table_of [Str "2024-01-01"; Str "2024-01-01"] [Str "X"; Str "Y"]
           [Str "Positive"; Str "Negative"] [Str "NY"; Str "NY"]
           [Num 10; Num 5] [Str "Video"; Str "Photo"].

(** An empty [Engagements] cell in the second row. *)
Definition table_null_engagements : DataFrame :=
  table_of [Str "2024-01-01"; Str "2024-01-01"] [Str "X"; Str "Y"]
           [Str "Positive"; Str "Negative"] [Str "NY"; Str "NY"]
           [Str "10"; Null] [Str "Video"; Str "Photo"].


(** A text that is no date in the second [Date] cell. *)
Definition table_bad_date : DataFrame :=
  table_of [Str "2024-01-01"; Str "yesterday"] [Str "X"; Str "Y"]
           [Str "Positive"; Str "Negative"] [Str "NY"; Str "NY"]
           [Num 10; Num 5] [Str "Video"; Str "Photo"].

(** No [Location] and no [Media Type] column. *)
Definition table_two_missing : DataFrame :=
  [(" DATE", [Str "2024-01-01"]); ("Platform ", [Str "X"]);
   ("Sentiment", [Str "Positive"]); ("Engagements", [Num 10])].

(** The [Platform] and [Sentiment] cells of the only row are empty. *)
Definition table_nulls : DataFrame :=
  table_of [Str "2024-01-01"] [Null] [Null] [Str "NY"] [Num 5] [Str "Video"].

(** The [Platform] cell of the second row is empty. *)
Definition table_null_platform : DataFrame :=
  table_of [Str "2024-01-01"; Str "2024-01-02"] [Str "X"; Null]
           [Str "Positive"; Str "Negative"] [Str "NY"; Str "LA"]
           [Num 10; Num 5] [Str "Video"; Str "Photo"].

(** Two columns whose names normalize to [date]. *)
Definition table_two_dates : DataFrame :=
  ("date ", [Str "2024-01-01"; Str "2024-01-01"]) :: example_table.

Definition day (y m d : Z) : Z := days_of_civil y m d * ns_per_day.

Definition example_widgets : widgets :=
  mkWidgets (days_of_civil 2024 1 1) (days_of_civil 2024 12 31)
            (Some "All") (Some "All") (Some "All").

(** ** Example datasets *)

Definition post (t : Z) (p s l : string) (e : Z) (m : string) : record :=
  mkRecord (Some t) (Some p) (Some s) (Some l) e (Some m).

(** The two records of the specification's scenario. *)
Definition example_dataset : Dataset :=
  [post (day 2024 1 1) "X" "Positive" "NY" 10 "Video";
   post (day 2024 1 1) "Y" "Negative" "NY" 5 "Photo"].

(** A platform that is named like the select boxes' first option. *)
Definition dataset_with_All : Dataset :=
  [post (day 2024 1 1) "All" "Positive" "NY" 10 "Video";
   post (day 2024 1 2) "X" "Negative" "LA" 5 "Photo"].

Definition widgets_platform (p : string) : widgets :=
  mkWidgets (days_of_civil 2024 1 1) (days_of_civil 2024 12 31)
            (Some p) (Some "All") (Some "All").

(** One record whose platform and sentiment cells were empty. *)
Definition dataset_nulls : Dataset :=
  [mkRecord (Some (day 2024 1 1)) None None (Some "NY") 5 (Some "Video")].

(** No record has a location. *)
Definition dataset_no_location : Dataset :=
  [mkRecord (Some (day 2024 1 1)) (Some "X") (Some "Positive") None 10 (Some "Video");
   mkRecord (Some (day 2024 1 2)) (Some "Y") (Some "Negative") None 5 (Some "Photo")].

(** Four records on three days. *)
Definition dataset_three_days : Dataset :=
  [post (day 2024 1 2) "X" "Positive" "NY" 10 "Video";
   post (day 2024 1 1) "Y" "Negative" "LA" 5 "Photo";
   post (day 2024 1 3) "X" "Positive" "NY" 8 "Video";
   post (day 2024 1 2) "Y" "Neutral" "SF" 1 "Video"].

(** Six records: three positive, two negative, one neutral. *)
Definition dataset_three_sentiments : Dataset :=
  [post (day 2024 1 1) "X" "Negative" "NY" 10 "Video";
   post (day 2024 1 1) "Y" "Positive" "LA" 5 "Photo";
   post (day 2024 1 2) "X" "Neutral" "NY" 8 "Video";
   post (day 2024 1 2) "Y" "Positive" "SF" 1 "Video";
   post (day 2024 1 3) "X" "Negative" "NY" 2 "Photo";
   post (day 2024 1 3) "Y" "Positive" "LA" 7 "Video"].

(** Seven records in six locations. *)
Definition dataset_six_locations : Dataset :=
  [post (day 2024 1 1) "X" "Positive" "NY" 10 "Video";
   post (day 2024 1 1) "Y" "Positive" "LA" 20 "Photo";
   post (day 2024 1 2) "X" "Negative" "SF" 30 "Video";
   post (day 2024 1 2) "Y" "Positive" "DC" 40 "Video";
   post (day 2024 1 3) "X" "Negative" "TX" 50 "Photo";
   post (day 2024 1 3) "Y" "Positive" "WA" 60 "Video";
   post (day 2024 1 4) "X" "Neutral" "NY" 15 "Text"].

(** * Properties *)

(** ** Strings and lists *)

Lemma append_assoc (a b c : string) : (a ++ b) ++ c = a ++ (b ++ c).
Proof.
  induction a as [|x a IH]; simpl; [reflexivity | now rewrite IH].
Qed.

Lemma append_empty_r (a : string) : a ++ "" = a.
Proof.
  induction a as [|x a IH]; simpl; [reflexivity | now rewrite IH].
Qed.

Lemma mem_In (x : string) (l : list string) : PyStr.mem x l = true <-> In x l.
Proof.
  unfold PyStr.mem. rewrite existsb_exists. split.
  - intros [y [Hy Heq]]. apply String.eqb_eq in Heq. now subst.
  - intros H. exists x. split; [assumption | apply String.eqb_refl].
Qed.

(** Every element of a joined list occurs in the joined text. *)
Lemma join_occurs (sep x : string) (l : list string) :
  In x l -> PyStr.occurs_in x (PyStr.join sep l).
Proof.
  unfold PyStr.join, PyStr.occurs_in.
  induction l as [|y l IH]; intros Hin; [contradiction|].
  destruct Hin as [-> | Hin].
  - destruct l as [|z l].
    + exists "", "". simpl. now rewrite append_empty_r.
    + exists "", (sep ++ String.concat sep (z :: l)). reflexivity.
  - destruct l as [|z l]; [contradiction|].
    destruct (IH Hin) as [pre [post E]].
    exists (y ++ sep ++ pre), post.
    change (String.concat sep (y :: z :: l))
      with (y ++ sep ++ String.concat sep (z :: l)).
    rewrite E. now rewrite !append_assoc.
Qed.

Lemma occurs_in_append_r (t p s : string) :
  PyStr.occurs_in t s -> PyStr.occurs_in t (p ++ s).
Proof.
  intros [pre [post E]]. exists (p ++ pre), post.
  now rewrite E, append_assoc.
Qed.

(** ** The exception monad *)

Lemma mapM_Ok_length {A B : Type} (f : A -> result B) (l : list A) (r : list B) :
  mapM f l = Ok r -> List.length r = List.length l.
Proof.
  revert r. induction l as [|a l IH]; simpl; intros r H.
  - now inversion H.
  - destruct (f a) as [b|e]; simpl in H; [|discriminate].
    destruct (mapM f l) as [bs|e]; simpl in H; [|discriminate].
    inversion H; subst. simpl. now rewrite (IH bs).
Qed.



(** [mapM] raises when the function raises on some element. *)
Lemma mapM_raises {A B : Type} (f : A -> result B) (l : list A) (a : A) :
  In a l -> (exists e, f a = Raise e) ->
  exists a' e, In a' l /\ f a' = Raise e /\ mapM f l = Raise e.
Proof.
  induction l as [|x l IH]; simpl; intros Hin Hf; [contradiction|].
  destruct (f x) as [b|e] eqn:Ex.
  - destruct Hin as [-> | Hin].
    + destruct Hf as [e Hf]. congruence.
    + destruct (IH Hin Hf) as [a' [e [Ha' [Hfa' Hm]]]].
      exists a', e. rewrite Hm. auto.
  - exists x, e. auto.
Qed.

(** ** Column selection and assignment *)

Lemma columns_setitem (df : DataFrame) (name : string) (s : Series) :
  columns (setitem df name s) = columns df.
Proof.
  unfold columns, setitem. rewrite map_map. apply map_ext.
  intros c. now destruct (String.eqb (fst c) name).
Qed.

Lemma filter_setitem_other (df : DataFrame) (name other : string) (s : Series) :
  other <> name ->
  filter (fun c => String.eqb (fst c) other) (setitem df name s)
  = filter (fun c => String.eqb (fst c) other) df.
Proof.
  intros Hne. unfold setitem. induction df as [|c df IH]; simpl; [reflexivity|].
  destruct (String.eqb (fst c) name) eqn:E; simpl.
  - apply String.eqb_eq in E.
    assert (String.eqb (fst c) other = false) as ->
        by (apply String.eqb_neq; congruence).
    exact IH.
  - destruct (String.eqb (fst c) other); now rewrite IH.
Qed.

(** Assigning one column leaves every other selection as it was. *)
Lemma getitem_setitem_other (df : DataFrame) (name other : string) (s : Series) :
  other <> name -> getitem (setitem df name s) other = getitem df other.
Proof.
  intros Hne. unfold getitem. now rewrite filter_setitem_other.
Qed.

Lemma getitem_setitem_same (df : DataFrame) (name : string) (old s : Series) :
  getitem df name = OneColumn old -> getitem (setitem df name s) name = OneColumn s.
Proof.
  unfold getitem, setitem.
  assert (G : forall l : DataFrame,
             map snd (filter (fun c => String.eqb (fst c) name)
                        (map (fun c => if String.eqb (fst c) name
                                       then (fst c, s) else c) l))
             = map (fun _ => s) (filter (fun c => String.eqb (fst c) name) l)).
  { induction l as [|c l IH]; simpl; [reflexivity|].
    destruct (String.eqb (fst c) name) eqn:E; simpl; rewrite E; simpl;
      now rewrite IH. }
  rewrite G.
  destruct (filter (fun c => String.eqb (fst c) name) df) as [|c1 [|c2 l]];
    simpl; intros H; try discriminate. reflexivity.
Qed.

(** Column by column, an assignment changes the data of the named columns
    only. *)
Lemma setitem_frame (df : DataFrame) (name : string) (s : Series) :
  Forall2 (fun c c' => fst c' = fst c /\ (fst c <> name -> snd c' = snd c))
          df (setitem df name s).
Proof.
  unfold setitem. induction df as [|c df IH]; simpl; constructor; auto.
  destruct (String.eqb (fst c) name) eqn:E; simpl; split; auto.
  apply String.eqb_eq in E. intros Hne. contradiction.
Qed.

Lemma getitem_In (df : DataFrame) (name : string) (s : Series) :
  getitem df name = OneColumn s -> In (name, s) df.
Proof.
  unfold getitem. intros H.
  destruct (filter (fun c => String.eqb (fst c) name) df) as [|c [|c2 l]] eqn:F;
    simpl in H; try discriminate.
  inversion H; subst.
  assert (Hin : In c (filter (fun c => String.eqb (fst c) name) df))
    by (rewrite F; now left).
  apply filter_In in Hin. destruct Hin as [Hin E].
  apply String.eqb_eq in E. destruct c as [n d]. simpl in *. now subst.
Qed.

(** A column that occurs in the table is selected alone, or as one of
    several. *)
Lemma In_getitem (df : DataFrame) (name : string) (s : Series) :
  In (name, s) df ->
  getitem df name = OneColumn s \/ exists cols, getitem df name = Frame cols.
Proof.
  intros Hin. unfold getitem.
  assert (Hf : In (name, s) (filter (fun c => String.eqb (fst c) name) df)).
  { apply filter_In. split; [assumption | apply String.eqb_refl]. }
  destruct (filter (fun c => String.eqb (fst c) name) df) as [|c [|c2 l]];
    simpl in *.
  - contradiction.
  - destruct Hf as [-> | []]. now left.
  - right. eexists. reflexivity.
Qed.

(** ** [clean_data] *)

Lemma columns_rename (df : DataFrame) :
  columns (rename_columns df) = map normalize_column (columns df).
Proof.
  unfold columns, rename_columns. now rewrite !map_map.
Qed.

Lemma missing_columns_In (df : DataFrame) (c : string) :
  In c (missing_columns df) <-> In c required_columns /\ ~ In c (columns df).
Proof.
  unfold missing_columns. rewrite filter_In, negb_true_iff.
  split; intros [H1 H2]; split; auto.
  - intros Hin. apply mem_In in Hin. congruence.
  - destruct (PyStr.mem c (columns df)) eqn:E; auto.
    apply mem_In in E. contradiction.
Qed.

Lemma Forall2_map_self {A B : Type} (P : A -> B -> Prop) (h : A -> B) (l : list A) :
  (forall a, P a (h a)) -> Forall2 P l (map h l).
Proof.
  intros H. induction l; simpl; constructor; auto.
Qed.


Section CleaningFacts.

Variable pd : string -> option Z.   (* the parser of [pd.to_datetime] *)
Variable pn : string -> option Z.   (* the parser of [pd.to_numeric] *)

Lemma convert_types_Ok (df df' : DataFrame) :
  convert_types pd pn df = Ok df' ->
  exists d e,
    to_datetime pd (getitem df "date") = Ok d /\
    to_numeric pn (getitem (setitem df "date" d) "engagements") = Ok e /\
    df' = setitem (setitem df "date" d) "engagements" (fillna0 e).
Proof.
  unfold convert_types. intros H.
  destruct (to_datetime pd (getitem df "date")) as [d|ex] eqn:Ed;
    simpl in H; [|discriminate].
  destruct (to_numeric pn (getitem (setitem df "date" d) "engagements"))
    as [e|ex] eqn:Ee; simpl in H; [|discriminate].
  inversion H. now exists d, e.
Qed.

Lemma clean_data_Some (df df' : DataFrame) (shown : list st_call) :
  clean_data pd pn df = (Some df', shown) ->
  missing_columns (rename_columns df) = [] /\
  convert_types pd pn (rename_columns df) = Ok df' /\ shown = [].
Proof.
  unfold clean_data.
  destruct (missing_columns (rename_columns df)); [|discriminate].
  destruct (convert_types pd pn (rename_columns df)); [|discriminate].
  intros H. now inversion H.
Qed.

(** A text the date parser rejects makes [pd.to_datetime] raise. *)
Lemma to_datetime_raises (col : Series) (s : string) :
  In (Str s) col -> pd s = None ->
  exists s', pd s' = None /\ In (Str s') col /\
             to_datetime pd (OneColumn col) = Raise (DateParseError s').
Proof.
  intros Hin Hp. simpl.
  destruct (mapM_raises (to_datetime_cell pd) col (Str s) Hin)
    as [a [e [Ha [Hf Hm]]]].
  { exists (DateParseError s). simpl. now rewrite Hp. }
  destruct a as [|z|s'|t]; simpl in Hf; try discriminate.
  destruct (pd s') eqn:Es'; [discriminate|].
  inversion Hf; subst. exists s'. auto.
Qed.




End CleaningFacts.

(** ** [clean_data] for every column name *)

(** [clean_data] is [clean_data_with] for the ASCII functions. *)
Lemma clean_data_with_ascii (pd pn : string -> option Z) (df : DataFrame) :
  clean_data_with PyStr.strip PyStr.lower pd pn df = clean_data pd pn df.
Proof. reflexivity. Qed.

Lemma columns_rename_with (py_strip py_lower : string -> string) (df : DataFrame) :
  columns (rename_columns_with py_strip py_lower df)
  = map (normalize_column_with py_strip py_lower) (columns df).
Proof.
  unfold columns, rename_columns_with. now rewrite !map_map.
Qed.

Lemma clean_data_with_Some (py_strip py_lower : string -> string)
      (pd pn : string -> option Z) (df df' : DataFrame) (shown : list st_call) :
  clean_data_with py_strip py_lower pd pn df = (Some df', shown) ->
  missing_columns (rename_columns_with py_strip py_lower df) = [] /\
  convert_types pd pn (rename_columns_with py_strip py_lower df) = Ok df' /\
  shown = [].
Proof.
  unfold clean_data_with.
  destruct (missing_columns (rename_columns_with py_strip py_lower df));
    [|discriminate].
  destruct (convert_types pd pn (rename_columns_with py_strip py_lower df));
    [|discriminate].
  intros H. now inversion H.
Qed.

(** ** Claims about [clean_data] *)

Section CleaningClaims.

Variable py_strip : string -> string.   (* [str.strip] *)
Variable py_lower : string -> string.   (* [str.lower] *)
Variable pd : string -> option Z.   (* the parser of [pd.to_datetime] *)
Variable pn : string -> option Z.   (* the parser of [pd.to_numeric] *)

(** C4. Whatever [str.strip] and [str.lower] do to the column names: when
    a required column is absent from the normalized column names,
    [clean_data] returns [None] and shows one error whose text is built
    from the list of all absent required columns: a column is in that list
    exactly when it is required and absent, and each of them occurs in the
    text shown. *)
Theorem clean_data_reports_every_missing_column (df : DataFrame) :
  (exists c, In c required_columns
             /\ ~ In c (map (normalize_column_with py_strip py_lower)
                          (columns df))) ->
  let missing := missing_columns (rename_columns_with py_strip py_lower df) in
  clean_data_with py_strip py_lower pd pn df
  = (None, [st_error (missing_message missing)])
  /\ (forall c, In c missing <->
                In c required_columns
                /\ ~ In c (map (normalize_column_with py_strip py_lower)
                             (columns df)))
  /\ (forall c, In c missing ->
                PyStr.occurs_in c (missing_message missing)).
Proof.
  intros [c0 [Hreq Habs]] missing.
  assert (Hc0 : In c0 missing).
  { apply missing_columns_In. now rewrite columns_rename_with. }
  split; [|split].
  - unfold clean_data_with. fold missing.
    destruct missing as [|m ms]; [contradiction | reflexivity].
  - intros c. unfold missing.
    now rewrite missing_columns_In, columns_rename_with.
  - intros c Hc. unfold missing_message.
    apply occurs_in_append_r. now apply join_occurs.
Qed.

(** C10. Whatever [str.strip] and [str.lower] do to the column names: when
    [clean_data] returns a table, it has the normalized column names in the
    input's order, every column not named [date] or [engagements] holds the
    input's cells, and so the platform, sentiment, location and media type
    of every row are those of the input. *)
Theorem clean_data_frame (df df' : DataFrame) (shown : list st_call) :
  clean_data_with py_strip py_lower pd pn df = (Some df', shown) ->
  columns df' = map (normalize_column_with py_strip py_lower) (columns df)
  /\ Forall2 (fun c c' => fst c' <> "date" -> fst c' <> "engagements" ->
                          snd c' = snd c) df df'
  /\ (forall name, name <> "date" -> name <> "engagements" ->
                   getitem df' name
                   = getitem (rename_columns_with py_strip py_lower df) name)
  /\ (forall i,
         let r := row_of (rename_columns_with py_strip py_lower df) i in
         platform (row_of df' i) = platform r
         /\ sentiment (row_of df' i) = sentiment r
         /\ location (row_of df' i) = location r
         /\ media_type (row_of df' i) = media_type r).
Proof.
  intros H. apply clean_data_with_Some in H as (_ & Hc & _).
  apply convert_types_Ok in Hc as (d & e & _ & _ & ->).
  assert (G : forall name, name <> "date" -> name <> "engagements" ->
                getitem (setitem (setitem
                                    (rename_columns_with py_strip py_lower df)
                                    "date" d)
                           "engagements" (fillna0 e)) name
                = getitem (rename_columns_with py_strip py_lower df) name).
  { intros name H1 H2. now rewrite !getitem_setitem_other. }
  split; [now rewrite !columns_setitem, columns_rename_with|].
  split; [|split; [exact G|]].
  - unfold setitem, rename_columns_with. rewrite !map_map.
    apply Forall2_map_self. intros c. simpl.
    destruct (String.eqb (normalize_column_with py_strip py_lower (fst c))
                         "date") eqn:E1; simpl.
    + apply String.eqb_eq in E1.
      destruct (String.eqb (normalize_column_with py_strip py_lower (fst c))
                           "engagements");
        simpl; intros; congruence.
    + destruct (String.eqb (normalize_column_with py_strip py_lower (fst c))
                           "engagements") eqn:E2;
        simpl; [|reflexivity].
      apply String.eqb_eq in E2. intros; congruence.
  - intros i. unfold row_of, column; simpl.
    rewrite !G by discriminate. auto.
Qed.

(** C5. When a cell of a [date] column holds a text the date parser
    rejects, [clean_data] returns [None] and shows one error, and the run
    of the script shows that error and nothing after it: no filter, no
    chart and no insight. *)
Theorem unparseable_date_rejects_table
        (df : DataFrame) (w : widgets) (col : Series) (s : string) :
  In ("date", col) (rename_columns df) ->
  In (Str s) col ->
  pd s = None ->
  exists msg,
    clean_data pd pn df = (None, [msg])
    /\ (msg = st_error (missing_message (missing_columns (rename_columns df)))
        \/ msg = st_error_processing NotOneDimensional
        \/ exists s', pd s' = None /\ In (Str s') col
                      /\ msg = st_error_processing (DateParseError s'))
    /\ script pd pn (Some df) w = (preamble ++ [msg])%list.
Proof.
  intros Hcol Hs Hp.
  assert (G : exists msg,
             clean_data pd pn df = (None, [msg])
             /\ (msg = st_error
                         (missing_message (missing_columns (rename_columns df)))
                 \/ msg = st_error_processing NotOneDimensional
                 \/ exists s', pd s' = None /\ In (Str s') col
                      /\ msg = st_error_processing (DateParseError s'))).
  { unfold clean_data.
    destruct (missing_columns (rename_columns df)) as [|m ms] eqn:Em.
    - unfold convert_types.
      destruct (In_getitem _ _ _ Hcol) as [-> | [cols ->]].
      + destruct (to_datetime_raises pd col s Hs Hp) as (s' & Hs' & Hin & ->).
        simpl. eexists. split; [reflexivity|]. right. right. eauto.
      + simpl. eexists. split; [reflexivity|]. auto.
    - eexists. split; [reflexivity|]. now left. }
  destruct G as (msg & Hcd & Hmsg). exists msg.
  split; [assumption|]. split; [assumption|].
  unfold script. now rewrite Hcd.
Qed.


End CleaningClaims.

(** *** The claims on the example tables *)

Lemma clean_data_reports_every_missing_column_witness :
  (exists c, In c required_columns
             /\ ~ In c (map (normalize_column_with PyStr.strip PyStr.lower)
                          (columns table_two_missing)))
  /\ clean_data_with PyStr.strip PyStr.lower iso_date decimal_integer
       table_two_missing
     = (None,
        [st_error "Error: The following required columns are missing from your CSV file: location, media_type"]).
Proof.
  assert (H : exists c, In c required_columns
                /\ ~ In c (map (normalize_column_with PyStr.strip PyStr.lower)
                             (columns table_two_missing))).
  { exists "location". split; [simpl; tauto|].
    vm_compute. intuition discriminate. }
  split; [exact H|].
  exact (proj1 (clean_data_reports_every_missing_column
                  PyStr.strip PyStr.lower iso_date decimal_integer
                  table_two_missing H)).
Defined.

Lemma clean_data_frame_witness :
  exists df',
    clean_data_with PyStr.strip PyStr.lower iso_date decimal_integer
      example_table = (Some df', [])
    /\ columns df'
       = ["date"; "platform"; "sentiment"; "location"; "engagements"; "media_type"]
    /\ getitem df' "platform" = OneColumn [Str "X"; Str "Y"].
Proof.
  eexists.
  assert (H : clean_data_with PyStr.strip PyStr.lower iso_date decimal_integer
                example_table = (Some _, [])) by (vm_compute; reflexivity).
  split; [exact H|].
  pose proof (clean_data_frame PyStr.strip PyStr.lower iso_date decimal_integer
                _ _ _ H) as (Hcols & _ & Hget & _).
  split; [exact Hcols|].
  rewrite Hget by discriminate. reflexivity.
Defined.

Lemma unparseable_date_rejects_table_witness :
  In ("date", [Str "2024-01-01"; Str "yesterday"]) (rename_columns table_bad_date)
  /\ iso_date "yesterday" = None
  /\ exists msg,
       clean_data iso_date decimal_integer table_bad_date = (None, [msg])
       /\ script iso_date decimal_integer (Some table_bad_date) example_widgets
          = (preamble ++ [msg])%list.
Proof.
  assert (H1 : In ("date", [Str "2024-01-01"; Str "yesterday"])
                  (rename_columns table_bad_date)) by (vm_compute; auto).
  assert (H2 : In (Str "yesterday") [Str "2024-01-01"; Str "yesterday"])
    by (simpl; auto).
  assert (H3 : iso_date "yesterday" = None) by reflexivity.
  split; [exact H1|]. split; [exact H3|].
  destruct (unparseable_date_rejects_table iso_date decimal_integer
              table_bad_date example_widgets _ _ H1 H2 H3)
    as (msg & Hc & _ & Hs).
  exists msg. split; assumption.
Defined.



(** ** The filter *)

Lemma filter_and {A : Type} (f g : A -> bool) (l : list A) :
  filter g (filter f l) = filter (fun x => f x && g x) l.
Proof.
  induction l as [|x l IH]; simpl; [reflexivity|].
  destruct (f x); simpl; [|exact IH].
  destruct (g x); now rewrite IH.
Qed.

Lemma filter_idempotent {A : Type} (f : A -> bool) (l : list A) :
  filter f (filter f l) = filter f l.
Proof.
  rewrite filter_and. apply filter_ext. intros x. now destruct (f x).
Qed.

(** One conditional filtering step of the script. *)
Lemma filter_step (selected : option string) (col : record -> option string)
      (f : record -> bool) (ds : Dataset) :
  (if not_All selected
   then filter (fun r => cat_eq (col r) selected) (filter f ds)
   else filter f ds)
  = filter (fun r => f r && satisfies selected (col r)) ds.
Proof.
  unfold satisfies, unset. destruct (not_All selected); simpl.
  - apply filter_and.
  - apply filter_ext. intros r. now rewrite andb_true_r.
Qed.

(** The script's sequence of filters keeps the records that match. *)
Lemma filtered_df_matches (ds : Dataset) (w : widgets) :
  filtered_df ds w = filter (matches w) ds.
Proof.
  unfold filtered_df, matches. now rewrite !filter_step.
Qed.

Lemma satisfies_value (c : string) (v : option string) :
  c <> "All" -> (satisfies (Some c) v = true <-> v = Some c).
Proof.
  intros Hc. unfold satisfies, unset, not_All, cat_eq.
  apply String.eqb_neq in Hc. rewrite Hc. simpl.
  destruct v as [a|]; [|split; discriminate].
  rewrite String.eqb_eq. split; congruence.
Qed.

(** C2, as the code has it.  The filter keeps, in order, the records in the
    date range that satisfy the three select boxes; a box holding a text
    other than ['All'] is satisfied by exactly the records whose category is
    that text, and a box holding ['All'] is satisfied by every record,
    whatever its category. *)
Theorem select_box_constraints (ds : Dataset) (w : widgets) :
  filtered_df ds w = filter (matches w) ds
  /\ (forall r, In r (filtered_df ds w) <->
                In r ds
                /\ in_date_range (start_date w) (end_date w) r = true
                /\ satisfies (selected_platform w) (platform r) = true
                /\ satisfies (selected_sentiment w) (sentiment r) = true
                /\ satisfies (selected_media_type w) (media_type r) = true)
  /\ (forall c v, c <> "All" -> (satisfies (Some c) v = true <-> v = Some c))
  /\ (forall v, satisfies (Some "All") v = true).
Proof.
  split; [apply filtered_df_matches|]. split; [|split].
  - intros r. rewrite filtered_df_matches, filter_In. unfold matches.
    rewrite !andb_true_iff. tauto.
  - apply satisfies_value.
  - reflexivity.
Qed.

Lemma select_box_constraints_witness :
  "X" <> "All"
  /\ filtered_df dataset_with_All (widgets_platform "X")
     = [post (day 2024 1 2) "X" "Negative" "LA" 5 "Photo"]
  /\ (forall v, satisfies (Some "X") v = true <-> v = Some "X").
Proof.
  assert (H : "X" <> "All") by discriminate.
  split; [exact H|]. split; [reflexivity|].
  intros v.
  exact (proj1 (proj2 (proj2 (select_box_constraints
                                dataset_with_All (widgets_platform "X"))))
           "X" v H).
Defined.

(** C2 as the specification states it fails: one record has the platform
    ["All"], and with that platform chosen in the select box the filter also
    keeps the record of platform ["X"]. *)
Lemma sentinel_collides_with_category :
  selected_platform (widgets_platform "All") = Some "All"
  /\ filtered_df dataset_with_All (widgets_platform "All") = dataset_with_All
  /\ In (post (day 2024 1 2) "X" "Negative" "LA" 5 "Photo")
        (filtered_df dataset_with_All (widgets_platform "All"))
  /\ filtered_df dataset_with_All (widgets_platform "All")
     <> filter (fun r => cat_eq (platform r) (Some "All")) dataset_with_All.
Proof.
  split; [reflexivity|]. split; [reflexivity|]. split.
  - vm_compute. auto.
  - vm_compute. discriminate.
Qed.

(** C8. Filtering a filtered dataset again with the same controls changes
    nothing. *)
Theorem filtered_df_idempotent (ds : Dataset) (w : widgets) :
  filtered_df (filtered_df ds w) w = filtered_df ds w.
Proof.
  rewrite !filtered_df_matches. apply filter_idempotent.
Qed.

(** ** Sorting by value *)

Section SortFacts.

Context {K : Type}.
Implicit Types (x y : K * Z) (l : Aggregate K).

Lemma insert_desc_perm x l : Permutation (insert_desc x l) (x :: l).
Proof.
  induction l as [|y l IH]; simpl; [reflexivity|].
  destruct (snd y <=? snd x); [reflexivity|].
  rewrite IH. apply perm_swap.
Qed.

Lemma sort_values_desc_perm l : Permutation (sort_values_desc l) l.
Proof.
  induction l as [|x l IH]; simpl; [constructor|].
  rewrite insert_desc_perm. now constructor.
Qed.

Lemma sort_values_desc_In x l : In x (sort_values_desc l) <-> In x l.
Proof.
  split; apply Permutation_in;
    [|symmetry]; apply sort_values_desc_perm.
Qed.

Lemma sort_values_desc_length l :
  List.length (sort_values_desc l) = List.length l.
Proof. apply Permutation_length, sort_values_desc_perm. Qed.

Lemma insert_desc_Forall (P : K * Z -> Prop) x l :
  P x -> Forall P l -> Forall P (insert_desc x l).
Proof.
  intros Hx Hl. induction Hl as [|y l Hy Hl IH]; simpl.
  - now constructor.
  - destruct (snd y <=? snd x); repeat constructor; auto.
Qed.

Lemma insert_desc_sorted x l :
  StronglySorted desc l -> StronglySorted desc (insert_desc x l).
Proof.
  induction 1 as [|y l Hs IH Hy]; simpl.
  - repeat constructor.
  - destruct (snd y <=? snd x) eqn:E.
    + constructor; [now constructor|].
      apply Z.leb_le in E. constructor; [exact E|].
      eapply Forall_impl; [|exact Hy]. unfold desc. intros; lia.
    + apply Z.leb_gt in E. constructor; [exact IH|].
      apply insert_desc_Forall; [unfold desc; lia | exact Hy].
Qed.

Lemma sort_values_desc_sorted l : StronglySorted desc (sort_values_desc l).
Proof.
  induction l as [|x l IH]; simpl; [constructor|].
  now apply insert_desc_sorted.
Qed.

Lemma firstn_incl (n : nat) l x : In x (firstn n l) -> In x l.
Proof.
  intros H. rewrite <- (firstn_skipn n l). apply in_or_app. now left.
Qed.

Lemma firstn_sorted (n : nat) l :
  StronglySorted desc l -> StronglySorted desc (firstn n l).
Proof.
  intros Hs. revert n. induction Hs as [|y l Hs IH Hy]; intros [|n]; simpl;
    try constructor; auto.
  rewrite Forall_forall in *. intros z Hz. apply Hy.
  now apply firstn_incl in Hz.
Qed.

(** In a descending aggregate the first entry has the greatest value ... *)
Lemma sorted_head_max x l y :
  StronglySorted desc (x :: l) -> In y (x :: l) -> snd y <= snd x.
Proof.
  intros Hs [-> | Hin]; [lia|].
  apply StronglySorted_inv in Hs as [_ Hall].
  rewrite Forall_forall in Hall. now apply Hall.
Qed.

(** ... and the last entry the least. *)
Lemma sorted_last_min l d y :
  StronglySorted desc l -> In y l -> snd (last l d) <= snd y.
Proof.
  induction 1 as [|x l Hs IH Hx]; intros Hin; [contradiction|].
  destruct l as [|z l].
  - destruct Hin as [-> | []]. simpl. lia.
  - change (last (x :: z :: l) d) with (last (z :: l) d).
    destruct Hin as [<- | Hin]; [|now apply IH].
    rewrite Forall_forall in Hx. apply Hx.
    destruct (exists_last (l := z :: l) ltac:(discriminate)) as (l' & a & E).
    rewrite E, last_last. apply in_or_app. right. now left.
Qed.

Lemma last_keys l d : last (keys l) (fst d) = fst (last l d).
Proof.
  induction l as [|x [|y l] IH]; try reflexivity. exact IH.
Qed.

Lemma last_In l d : l <> [] -> In (last l d) l.
Proof.
  intros Hne. destruct (exists_last Hne) as (l' & a & ->).
  rewrite last_last. apply in_or_app. right. now left.
Qed.

Lemma sum_values_cons x l : sum (values (x :: l)) = snd x + sum (values l).
Proof. reflexivity. Qed.

Lemma sum_insert_desc x l :
  sum (values (insert_desc x l)) = snd x + sum (values l).
Proof.
  induction l as [|y l IH]; [reflexivity|]. cbn [insert_desc].
  destruct (snd y <=? snd x); rewrite !sum_values_cons; [reflexivity|].
  rewrite IH. lia.
Qed.

(** Sorting does not change the sum of the values. *)
Lemma sum_sort_values_desc l :
  sum (values (sort_values_desc l)) = sum (values l).
Proof.
  induction l as [|x l IH]; [reflexivity|]. cbn [sort_values_desc].
  now rewrite sum_insert_desc, sum_values_cons, IH.
Qed.

Lemma idxmax_None l : idxmax l = None <-> l = [].
Proof.
  destruct l as [|x l]; simpl; [tauto|].
  split; [|discriminate].
  destruct (idxmax l) as [m|]; [|discriminate].
  destruct (snd m <=? snd x); discriminate.
Qed.


End SortFacts.

(** ** Rounding *)

Lemma round_half_even_nearest (num den : Z) :
  0 < den -> 2 * Z.abs (num - den * round_half_even num den) <= den.
Proof.
  intros Hden. unfold round_half_even.
  pose proof (Z.div_mod num den ltac:(lia)) as Hdm.
  pose proof (Z.mod_pos_bound num den Hden) as Hb.
  destruct (2 * (num mod den) <? den) eqn:E1.
  - apply Z.ltb_lt in E1. nia.
  - apply Z.ltb_ge in E1.
    destruct (den <? 2 * (num mod den)) eqn:E2.
    + apply Z.ltb_lt in E2. nia.
    + apply Z.ltb_ge in E2. destruct (Z.even (num / den)); nia.
Qed.

(** The two formats on binary64 quotients: [(49 / 80) * 100] is the float
    61.250000000000007, shown as 61.3; a negative zero keeps its sign; a tie
    goes to the even neighbour; a zero denominator gives [nan] or [inf]. *)
Example format_pct_1f_examples :
  format_pct_1f 49 80 = "61.3"
  /\ format_pct_1f 2 3 = "66.7"
  /\ format_pct_1f 1 8 = "12.5"
  /\ format_pct_1f 1 1 = "100.0"
  /\ format_pct_1f 0 (-5) = "-0.0"
  /\ format_pct_1f 0 0 = "nan"
  /\ format_pct_1f 5 0 = "inf"
  /\ format_pct_1f (-5) 0 = "-inf".
Proof. vm_compute. repeat split. Qed.

Example format_0f_commas_examples :
  format_0f_commas 24 3 = "8"
  /\ format_0f_commas 5 2 = "2"
  /\ format_0f_commas 7 2 = "4"
  /\ format_0f_commas 2469135 2 = "1,234,568"
  /\ format_0f_commas (-1) 4 = "-0"
  /\ format_0f_commas (-7000) 2 = "-3,500".
Proof. vm_compute. repeat split. Qed.

(** ** Grouping *)

Lemma total_of_cons {K : Type} (cmp : K -> K -> comparison)
      (key : record -> option K) (k : K) (r : record) (df : Dataset) :
  total_of cmp key k (r :: df)
  = (match key r with
     | Some k' => match cmp k' k with Eq => engagements r | _ => 0 end
     | None => 0
     end) + total_of cmp key k df.
Proof.
  unfold total_of. simpl.
  destruct (key r) as [k'|]; [|reflexivity].
  destruct (cmp k' k); reflexivity.
Qed.

Section GroupByFacts.

Context {K : Type}.
Variable cmp : K -> K -> comparison.
Variable key : record -> option K.

Local Notation "'lt'" := (lt_by cmp).

Lemma sum_group_add (k : K) (v : Z) (acc : Aggregate K) :
  sum (values (group_add cmp k v acc)) = v + sum (values acc).
Proof.
  induction acc as [|[k' v'] acc IH]; [simpl; lia|]. cbn [group_add].
  destruct (cmp k k'); rewrite !sum_values_cons; simpl snd; lia.
Qed.

(** The group sums add up to the engagements of the rows with a key. *)
Lemma groupby_sum_total (df : Dataset) :
  sum (values (groupby_sum cmp key df))
  = sum (map engagements (filter (fun r => negb (isnull (key r))) df)).
Proof.
  induction df as [|r df IH]; [reflexivity|]. cbn [groupby_sum filter].
  destruct (key r) as [k|]; simpl isnull; cbn [negb]; [|exact IH].
  rewrite sum_group_add, IH. reflexivity.
Qed.

Lemma groupby_sum_all_null (df : Dataset) :
  (forall r, In r df -> key r = None) -> groupby_sum cmp key df = [].
Proof.
  induction df as [|r df IH]; intros H; [reflexivity|]. simpl.
  rewrite (H r (or_introl eq_refl)). apply IH. intros; apply H. now right.
Qed.



Hypothesis cmp_eq : forall a b, cmp a b = Eq <-> a = b.
Hypothesis cmp_trans : forall a b c, lt a b -> lt b c -> lt a c.
Hypothesis cmp_gt : forall a b, cmp a b = Gt -> lt b a.

Lemma lt_irrefl (a : K) : ~ lt a a.
Proof.
  unfold lt_by. intros H.
  rewrite (proj2 (cmp_eq a a) eq_refl) in H. discriminate.
Qed.

Lemma group_add_keys (k0 : K) (v0 : Z) (acc : Aggregate K) (k : K) :
  In k (keys (group_add cmp k0 v0 acc)) <-> k = k0 \/ In k (keys acc).
Proof.
  induction acc as [|[k' v'] acc IH]; simpl; [intuition|].
  destruct (cmp k0 k') eqn:E; simpl.
  - apply cmp_eq in E. subst. intuition.
  - intuition.
  - rewrite IH. intuition.
Qed.

Lemma group_add_sorted (k0 : K) (v0 : Z) (acc : Aggregate K) :
  StronglySorted lt (keys acc) ->
  StronglySorted lt (keys (group_add cmp k0 v0 acc)).
Proof.
  induction acc as [|[k' v'] acc IH]; simpl; intros Hs.
  - repeat constructor.
  - apply StronglySorted_inv in Hs as [Hs Hall].
    destruct (cmp k0 k') eqn:E; simpl.
    + now constructor.
    + constructor; [now constructor|]. constructor; [exact E|].
      eapply Forall_impl; [|exact Hall]. intros a Ha. now apply cmp_trans with k'.
    + constructor; [now apply IH|].
      apply Forall_forall. intros a Ha. apply group_add_keys in Ha.
      destruct Ha as [-> | Ha]; [now apply cmp_gt|].
      rewrite Forall_forall in Hall. now apply Hall.
Qed.

(** The keys of the groups are in strictly ascending order. *)
Lemma groupby_sum_sorted (df : Dataset) :
  StronglySorted lt (keys (groupby_sum cmp key df)).
Proof.
  induction df as [|r df IH]; simpl; [constructor|].
  destruct (key r); [now apply group_add_sorted | exact IH].
Qed.

(** The groups are the keys that occur. *)
Lemma groupby_sum_keys (df : Dataset) (k : K) :
  In k (keys (groupby_sum cmp key df)) <-> exists r, In r df /\ key r = Some k.
Proof.
  induction df as [|r df IH]; simpl.
  - split; [contradiction | now intros [r [[] _]]].
  - destruct (key r) as [k0|] eqn:E.
    + rewrite group_add_keys, IH. split.
      * intros [-> | [r' [Hin Hk]]]; [exists r | exists r']; auto.
      * intros [r' [[<- | Hin] Hk]]; [left; congruence | right; eauto].
    + rewrite IH. split.
      * intros [r' [Hin Hk]]. eauto.
      * intros [r' [[<- | Hin] Hk]]; [congruence | eauto].
Qed.

Lemma In_keys (acc : Aggregate K) (k : K) (v : Z) :
  In (k, v) acc -> In k (keys acc).
Proof. intros H. apply (in_map fst) in H. exact H. Qed.

Lemma total_of_absent (df : Dataset) (k : K) :
  (forall r, In r df -> key r <> Some k) -> total_of cmp key k df = 0.
Proof.
  induction df as [|r df IH]; intros H; [reflexivity|].
  rewrite total_of_cons, IH by (intros; apply H; now right).
  specialize (H r (or_introl eq_refl)).
  destruct (key r) as [k'|]; [|reflexivity].
  destruct (cmp k' k) eqn:E; try reflexivity.
  apply cmp_eq in E. congruence.
Qed.

Lemma group_add_In (k0 : K) (v0 : Z) (acc : Aggregate K) (k : K) (v : Z) :
  StronglySorted lt (keys acc) ->
  In (k, v) (group_add cmp k0 v0 acc) ->
  (k <> k0 /\ In (k, v) acc)
  \/ (k = k0 /\ exists v', In (k0, v') acc /\ v = v' + v0)
  \/ (k = k0 /\ ~ In k0 (keys acc) /\ v = v0).
Proof.
  induction acc as [|[k' v'] acc IH]; simpl; intros Hs Hin.
  - destruct Hin as [Hin | []]. injection Hin as <- <-. right. right. auto.
  - apply StronglySorted_inv in Hs as [Hs Hall].
    rewrite Forall_forall in Hall.
    destruct (cmp k0 k') eqn:E; simpl in Hin.
    + apply cmp_eq in E. subst k'.
      destruct Hin as [Hin | Hin].
      * injection Hin as <- <-. right. left. split; [reflexivity|].
        exists v'. auto.
      * left. split; [|now right].
        intros ->. apply In_keys in Hin. apply (lt_irrefl k0). now apply Hall.
    + destruct Hin as [Hin | Hin].
      * injection Hin as <- <-. right. right. split; [reflexivity|].
        split; [|reflexivity]. intros [-> | Hk].
        -- now apply (lt_irrefl k0).
        -- apply (lt_irrefl k0). apply cmp_trans with k'; auto.
      * left. split; [|exact Hin]. intros ->.
        destruct Hin as [Hin | Hin].
        -- injection Hin as -> _. now apply (lt_irrefl k0).
        -- apply In_keys in Hin. apply (lt_irrefl k0).
           apply cmp_trans with k'; auto.
    + assert (Hne : k' <> k0).
      { intros ->. rewrite (proj2 (cmp_eq k0 k0) eq_refl) in E. discriminate. }
      destruct Hin as [Hin | Hin].
      * injection Hin as <- <-. left. auto.
      * destruct (IH Hs Hin) as [[H1 H2] | [[H1 [v'' [H2 H3]]] | [H1 [H2 H3]]]].
        -- left. auto.
        -- right. left. split; [exact H1|]. exists v''. auto.
        -- right. right. split; [exact H1|]. split; [|exact H3].
           intros [Hk | Hk]; [congruence | contradiction].
Qed.

(** The value of a group is the sum over the rows of its key. *)
Lemma groupby_sum_value (df : Dataset) (k : K) (v : Z) :
  In (k, v) (groupby_sum cmp key df) -> v = total_of cmp key k df.
Proof.
  revert k v. induction df as [|r df IH]; simpl; intros k v Hin; [contradiction|].
  rewrite total_of_cons.
  destruct (key r) as [k0|] eqn:Ek; [|now apply IH].
  apply group_add_In in Hin; [|apply groupby_sum_sorted].
  destruct Hin as [[H1 H2] | [[H1 [v' [H2 H3]]] | [H1 [H2 H3]]]].
  - destruct (cmp k0 k) eqn:E; [|now rewrite (IH k v H2) ..].
    apply cmp_eq in E. congruence.
  - subst k. rewrite (proj2 (cmp_eq k0 k0) eq_refl).
    rewrite <- (IH k0 v' H2). lia.
  - subst k v. rewrite (proj2 (cmp_eq k0 k0) eq_refl).
    rewrite total_of_absent; [lia|].
    intros r' Hr' Hk. apply H2. apply groupby_sum_keys. eauto.
Qed.

End GroupByFacts.

(** ** The two key orders *)



Lemma string_compare_OT (a b : string) :
  String.compare a b = OrdersEx.String_as_OT.compare a b.
Proof.
  revert b. induction a as [|x a IH]; intros [|y b]; reflexivity.
Qed.

Lemma string_compare_eq (a b : string) : String.compare a b = Eq <-> a = b.
Proof.
  split; [apply String.compare_eq_iff|]. intros <-.
  pose proof (String.compare_antisym a a) as H.
  destruct (String.compare a a); simpl in H; congruence.
Qed.

Lemma string_compare_trans (a b c : string) :
  lt_by String.compare a b -> lt_by String.compare b c -> lt_by String.compare a c.
Proof.
  unfold lt_by. rewrite !string_compare_OT.
  apply (@StrictOrder_Transitive _ _ OrdersEx.String_as_OT.lt_strorder).
Qed.

Lemma string_compare_gt (a b : string) :
  String.compare a b = Gt -> lt_by String.compare b a.
Proof.
  unfold lt_by. intros H. rewrite String.compare_antisym, H. reflexivity.
Qed.

(** ** Counting values *)

Lemma count_nonneg (x : string) (l : list string) : 0 <= count x l.
Proof. unfold count. lia. Qed.

Lemma count_pos (x : string) (l : list string) : In x l -> 0 < count x l.
Proof.
  intros Hin. unfold count.
  assert (H : In x (filter (String.eqb x) l)).
  { apply filter_In. split; [assumption | apply String.eqb_refl]. }
  destruct (filter (String.eqb x) l); [contradiction | simpl; lia].
Qed.

Lemma count_absent (x : string) (l : list string) : ~ In x l -> count x l = 0.
Proof.
  intros Hn. unfold count.
  destruct (filter (String.eqb x) l) as [|y f] eqn:E; [reflexivity|].
  assert (H : In y (filter (String.eqb x) l)) by (rewrite E; now left).
  apply filter_In in H as [Hin Heq]. apply String.eqb_eq in Heq. now subst.
Qed.

Lemma unique_In (x : string) (l : list string) : In x (unique l) <-> In x l.
Proof.
  induction l as [|y l IH]; simpl; [tauto|].
  rewrite filter_In, IH, negb_true_iff, String.eqb_neq.
  destruct (String.eqb_spec y x); intuition congruence.
Qed.

Lemma unique_NoDup (l : list string) : NoDup (unique l).
Proof.
  induction l as [|y l IH]; simpl; constructor.
  - rewrite filter_In, negb_true_iff, String.eqb_neq. now intros [_ H].
  - now apply NoDup_filter.
Qed.

Lemma dropna_In {A : Type} (x : A) (l : list (option A)) :
  In x (dropna l) <-> In (Some x) l.
Proof.
  induction l as [|[y|] l IH]; simpl; [tauto | |].
  - rewrite IH. split; intros [H | H]; auto; left; congruence.
  - rewrite IH. split; [auto | intros [H | H]; [discriminate | auto]].
Qed.

(** The entries of [value_counts] are the values that occur, each with the
    number of its occurrences. *)
Lemma value_counts_In (col : list (option string)) (k : string) (c : Z) :
  In (k, c) (value_counts col) <->
  In k (dropna col) /\ c = count k (dropna col).
Proof.
  unfold value_counts. rewrite sort_values_desc_In, in_map_iff. split.
  - intros [x [E Hin]]. injection E as <- <-.
    apply (proj1 (unique_In _ _)) in Hin. auto.
  - intros [Hin ->]. exists k. split; [reflexivity|].
    now apply (proj2 (unique_In _ _)).
Qed.

Lemma value_counts_length (col : list (option string)) :
  List.length (value_counts col) = List.length (unique (dropna col)).
Proof.
  unfold value_counts. now rewrite sort_values_desc_length, length_map.
Qed.

Lemma value_counts_sorted (col : list (option string)) :
  StronglySorted desc (value_counts col).
Proof. apply sort_values_desc_sorted. Qed.

(** ** The exact range *)

Lemma sum_abs_filter (f : record -> bool) (df : Dataset) :
  0 <= sum (map (fun r => Z.abs (engagements r)) (filter f df))
    <= sum (map (fun r => Z.abs (engagements r)) df).
Proof.
  induction df as [|r df IH]; simpl; [lia|].
  destruct (f r); simpl; lia.
Qed.

Lemma abs_sum_engagements (df : Dataset) :
  Z.abs (sum (map engagements df))
  <= sum (map (fun r => Z.abs (engagements r)) df).
Proof.
  induction df as [|r df IH]; simpl; lia.
Qed.

(** A part of a dataset in the exact range is in the exact range. *)
Lemma in_exact_range_filter (f : record -> bool) (df : Dataset) :
  in_exact_range df -> in_exact_range (filter f df).
Proof.
  unfold in_exact_range. pose proof (sum_abs_filter f df). lia.
Qed.

(** In the exact range, the engagements of any part of the dataset add up
    to a number of absolute value at most 2^53. *)
Lemma part_sum_in_range (f : record -> bool) (df : Dataset) :
  in_exact_range df -> Z.abs (sum (map engagements (filter f df))) <= 2 ^ 53.
Proof.
  unfold in_exact_range. intros H.
  pose proof (abs_sum_engagements (filter f df)).
  pose proof (sum_abs_filter f df). lia.
Qed.

(** In the exact range the int64 sum of the engagements of any part of the
    dataset is the sum of the integers: no addition wraps. *)
Lemma int64_add_exact (a b : Z) :
  Z.abs (a + b) <= 2 ^ 53 -> int64_add a b = a + b.
Proof.
  intros H. unfold int64_add.
  assert (H53 : 2 ^ 53 < 2 ^ 63) by reflexivity.
  rewrite Z.mod_small by (change (2 ^ 64) with (2 * 2 ^ 63); lia). lia.
Qed.

Lemma fold_int64_add_exact (l : list Z) (acc : Z) :
  Z.abs acc + sum (map Z.abs l) <= 2 ^ 53 ->
  fold_left int64_add l acc = acc + sum l.
Proof.
  revert acc. induction l as [|a l IH]; intros acc H; simpl in *; [lia|].
  assert (0 <= sum (map Z.abs l)).
  { clear. induction l; simpl; lia. }
  rewrite int64_add_exact by lia. rewrite IH by lia. lia.
Qed.

Lemma sum_int64_in_range (f : record -> bool) (df : Dataset) :
  in_exact_range df ->
  sum_int64 (map engagements (filter f df))
  = sum (map engagements (filter f df)).
Proof.
  unfold in_exact_range, sum_int64. intros H.
  rewrite fold_int64_add_exact; [lia|].
  pose proof (sum_abs_filter f df) as Hf.
  rewrite map_map. simpl. lia.
Qed.

(** Beyond the exact range the two kinds of sum leave the integers: an int64
    sum wraps, and a float64 sum depends on the order of its additions. *)
Example int64_sum_wraps :
  sum_int64 [2 ^ 62; 2 ^ 62] = - 2 ^ 63 /\ sum [2 ^ 62; 2 ^ 62] = 2 ^ 63.
Proof. split; reflexivity. Qed.

Example float64_sum_depends_on_grouping :
  PrimFloat.add (PrimFloat.add (float_of_Z (2 ^ 53)) (float_of_Z 1))
                (float_of_Z 1)
  = float_of_Z (2 ^ 53)
  /\ PrimFloat.add (float_of_Z (2 ^ 53))
                   (PrimFloat.add (float_of_Z 1) (float_of_Z 1))
     = float_of_Z (2 ^ 53 + 2)
  /\ float_of_Z (2 ^ 53) <> float_of_Z (2 ^ 53 + 2).
Proof.
  split; [vm_compute; reflexivity|]. split; [vm_compute; reflexivity|].
  intros H. apply (f_equal FloatOps.Prim2SF) in H. vm_compute in H.
  discriminate H.
Qed.

(** ** The platform aggregate *)

(** C7, as the code has it.  For a dataset in the exact range: the values
    of the platform aggregate add up to the engagements of the records that
    have a platform, hence to the engagements of the whole dataset when no
    platform is null; the value of each platform is the sum of the
    engagements of its records; and these sums stay within 2^53 in absolute
    value. *)
Theorem platform_sums_add_up (df : Dataset) :
  in_exact_range df ->
  sum (values (platform_engagements df))
  = sum (map engagements (filter (fun r => negb (isnull (platform r))) df))
  /\ ((forall r, In r df -> platform r <> None) ->
      sum (values (platform_engagements df)) = sum (map engagements df))
  /\ (forall p v, In (p, v) (platform_engagements df) ->
                  v = total_of String.compare platform p df
                  /\ Z.abs v <= 2 ^ 53)
  /\ Z.abs (sum (values (platform_engagements df))) <= 2 ^ 53.
Proof.
  intros Hrange.
  assert (H : sum (values (platform_engagements df))
              = sum (map engagements
                       (filter (fun r => negb (isnull (platform r))) df))).
  { unfold platform_engagements.
    now rewrite sum_sort_values_desc, groupby_sum_total. }
  split; [exact H|]. split; [|split].
  - intros Hall. rewrite H. f_equal. f_equal.
    apply forallb_filter_id. apply forallb_forall. intros r Hr.
    specialize (Hall r Hr). now destruct (platform r).
  - intros p v Hin. unfold platform_engagements in Hin.
    apply (proj1 (sort_values_desc_In _ _)) in Hin.
    assert (Hv : v = total_of String.compare platform p df)
      by exact (groupby_sum_value _ _ string_compare_eq string_compare_trans
                  string_compare_gt _ _ _ Hin).
    split; [exact Hv|]. rewrite Hv. unfold total_of.
    now apply part_sum_in_range.
  - rewrite H. now apply part_sum_in_range.
Qed.

Lemma platform_sums_add_up_witness :
  in_exact_range example_dataset
  /\ (forall r, In r example_dataset -> platform r <> None)
  /\ sum (values (platform_engagements example_dataset))
     = sum (map engagements example_dataset)
  /\ platform_engagements example_dataset = [("X", 10); ("Y", 5)].
Proof.
  assert (Hr : in_exact_range example_dataset) by (vm_compute; discriminate).
  assert (H : forall r, In r example_dataset -> platform r <> None).
  { intros r [<- | [<- | []]]; discriminate. }
  split; [exact Hr|]. split; [exact H|]. split; [|reflexivity].
  exact (proj1 (proj2 (platform_sums_add_up example_dataset Hr)) H).
Defined.

(** C7 as the specification states it fails: the only record has no
    platform, so the platform aggregate is empty and its values add up
    to 0, while the engagements of the dataset add up to 5.  The dataset is
    the cleaned form of a table with an empty [Platform] cell, and it is in
    the exact range. *)
Lemma null_platform_is_not_counted :
  option_map rows_of (fst (clean_data iso_date decimal_integer table_nulls))
  = Some dataset_nulls
  /\ in_exact_range dataset_nulls
  /\ platform_engagements dataset_nulls = []
  /\ sum (values (platform_engagements dataset_nulls)) = 0
  /\ sum (map engagements dataset_nulls) = 5
  /\ sum (values (platform_engagements dataset_nulls))
     <> sum (map engagements dataset_nulls).
Proof.
  split; [vm_compute; reflexivity|].
  split; [vm_compute; discriminate|].
  repeat split; try reflexivity. vm_compute. discriminate.
Qed.

(** ** The location aggregate *)

(** C6. The chart's location aggregate ([nlargest(5)]) has at most 5
    entries, in descending order of value.  The insight's aggregate is the
    [head(5)] of the group sums as [sort_values(ascending=False)] arranges
    them: for every descending arrangement [sorted_groups] of the group sums,
    and so for whichever one the sort returns, it has at most 5 entries, all
    of them group sums, in descending order of value.  When every location
    is null both aggregates are empty and [get_location_insights] returns no
    insight. *)
Theorem location_aggregate_top5
        (df : Dataset) (sorted_groups : Aggregate string) :
  Permutation sorted_groups (engagement_by_location df) ->
  StronglySorted desc sorted_groups ->
  (List.length (location_engagements df) <= 5)%nat
  /\ StronglySorted desc (location_engagements df)
  /\ (List.length (head 5 sorted_groups) <= 5)%nat
  /\ StronglySorted desc (head 5 sorted_groups)
  /\ (forall x, In x (head 5 sorted_groups) ->
                In x (engagement_by_location df))
  /\ (List.length (top_locations df) <= 5)%nat
  /\ StronglySorted desc (top_locations df)
  /\ ((forall r, In r df -> location r = None) ->
      location_engagements df = []
      /\ head 5 sorted_groups = []
      /\ top_locations df = []
      /\ get_location_insights df = []).
Proof.
  intros Hperm Hsorted.
  split; [apply firstn_le_length|].
  split; [apply firstn_sorted, sort_values_desc_sorted|].
  split; [apply firstn_le_length|].
  split; [now apply firstn_sorted|].
  split.
  { intros x Hx. apply firstn_incl in Hx.
    eapply Permutation_in; [exact Hperm | exact Hx]. }
  split; [apply firstn_le_length|].
  split; [apply firstn_sorted, sort_values_desc_sorted|].
  intros Hall.
  assert (E : engagement_by_location df = [])
    by now apply groupby_sum_all_null.
  rewrite E in Hperm. apply Permutation_sym, Permutation_nil in Hperm.
  subst sorted_groups.
  unfold top_locations, location_engagements, nlargest, head.
  rewrite E. repeat split.
  unfold get_location_insights. destruct df as [|r df]; [reflexivity|].
  assert (F : forallb (fun r => isnull (location r)) (r :: df) = true).
  { apply forallb_forall. intros x Hx. now rewrite (Hall x Hx). }
  now rewrite F.
Qed.

Lemma location_aggregate_top5_witness :
  Permutation [("WA", 60); ("TX", 50); ("DC", 40); ("SF", 30); ("NY", 25);
               ("LA", 20)]
              (engagement_by_location dataset_six_locations)
  /\ head 5 [("WA", 60); ("TX", 50); ("DC", 40); ("SF", 30); ("NY", 25);
             ("LA", 20)]
     = [("WA", 60); ("TX", 50); ("DC", 40); ("SF", 30); ("NY", 25)]
  /\ (List.length (location_engagements dataset_six_locations) <= 5)%nat
  /\ StronglySorted desc
       (head 5 [("WA", 60); ("TX", 50); ("DC", 40); ("SF", 30); ("NY", 25);
                ("LA", 20)]).
Proof.
  assert (Hp : Permutation
                 [("WA", 60); ("TX", 50); ("DC", 40); ("SF", 30); ("NY", 25);
                  ("LA", 20)]
                 (engagement_by_location dataset_six_locations)).
  { change (engagement_by_location dataset_six_locations)
      with [("DC", 40); ("LA", 20); ("NY", 25); ("SF", 30); ("TX", 50);
            ("WA", 60)].
    apply Permutation_sym.
    change [("WA", 60); ("TX", 50); ("DC", 40); ("SF", 30); ("NY", 25);
            ("LA", 20)]
      with (sort_values_desc
              [("DC", 40); ("LA", 20); ("NY", 25); ("SF", 30); ("TX", 50);
               ("WA", 60)]).
    apply Permutation_sym, sort_values_desc_perm. }
  assert (Hs : StronglySorted desc
                 [("WA", 60); ("TX", 50); ("DC", 40); ("SF", 30); ("NY", 25);
                  ("LA", 20)]).
  { change [("WA", 60); ("TX", 50); ("DC", 40); ("SF", 30); ("NY", 25);
            ("LA", 20)]
      with (sort_values_desc
              [("DC", 40); ("LA", 20); ("NY", 25); ("SF", 30); ("TX", 50);
               ("WA", 60)]).
    apply sort_values_desc_sorted. }
  split; [exact Hp|]. split; [reflexivity|].
  destruct (location_aggregate_top5 dataset_six_locations _ Hp Hs)
    as (H1 & _ & _ & H4 & _).
  split; [exact H1 | exact H4].
Defined.

(** ** The trend insight *)



(** The text of a finite binary64 number [m * 2^e] in fixed notation: the
    digits of an integer nearest to [scale] times the number. *)
Lemma format_fixed_nearest (show : Z -> string) (scale : Z) (x : PrimFloat.float)
      (s : bool) (m : positive) (e : Z) :
  FloatOps.Prim2SF x = SpecFloat.S754_finite s m e ->
  exists t,
    format_fixed show scale x = (if s then "-" else "") ++ show t
    /\ (0 <= e -> t = Zpos m * scale * 2 ^ e)
    /\ (e < 0 -> 2 * Z.abs (Zpos m * scale - 2 ^ (- e) * t) <= 2 ^ (- e)).
Proof.
  intros H. unfold format_fixed. rewrite H.
  destruct (0 <=? e) eqn:E.
  - apply Z.leb_le in E. eexists. split; [reflexivity|]. split; [auto | lia].
  - apply Z.leb_gt in E. eexists. split; [reflexivity|]. split; [lia|].
    intros _. apply round_half_even_nearest.
    apply Z.pow_pos_nonneg; lia.
Qed.





(** ** The sentiment insight *)

(** The two ends of the sorted counts of a column with some value. *)
Lemma sorted_counts_ends (col : list (option string)) (s0 : string) :
  In s0 (dropna col) ->
  exists dom rest least,
    sort_values_desc (value_counts col) = (dom, count dom (dropna col)) :: rest
    /\ last (keys (sort_values_desc (value_counts col))) "" = least
    /\ In dom (dropna col)
    /\ (forall s, count s (dropna col) <= count dom (dropna col))
    /\ In least (dropna col)
    /\ (forall s, In s (dropna col) ->
                  count least (dropna col) <= count s (dropna col))
    /\ List.length (sort_values_desc (value_counts col))
       = List.length (unique (dropna col)).
Proof.
  intros Hin0. set (vals := dropna col) in *.
  remember (sort_values_desc (value_counts col)) as ss eqn:Ess.
  assert (Hss : forall k c, In (k, c) ss <-> In k vals /\ c = count k vals).
  { intros k c. rewrite Ess, sort_values_desc_In. apply value_counts_In. }
  assert (Hsorted : StronglySorted desc ss)
    by (rewrite Ess; apply sort_values_desc_sorted).
  assert (Hlen : List.length ss = List.length (unique vals)).
  { now rewrite Ess, sort_values_desc_length, value_counts_length. }
  destruct ss as [|[dom n] rest].
  { exfalso. exact (proj2 (Hss s0 (count s0 vals)) (conj Hin0 eq_refl)). }
  destruct (proj1 (Hss dom n) (or_introl eq_refl)) as [Hdom ->].
  remember (last ((dom, count dom vals) :: rest) ("", 0)) as lst eqn:Elst.
  assert (Hlst : In lst ((dom, count dom vals) :: rest))
    by (rewrite Elst; apply last_In; discriminate).
  destruct lst as [least m].
  destruct (proj1 (Hss least m) Hlst) as [Hleast ->].
  exists dom, rest, least. split; [reflexivity|]. split.
  { change "" with (fst ("", 0)). rewrite last_keys, <- Elst. reflexivity. }
  split; [exact Hdom|]. split; [|split; [exact Hleast|split; [|exact Hlen]]].
  - intros s. destruct (in_dec string_dec s vals) as [Hs | Hs].
    + apply (sorted_head_max (dom, count dom vals) rest (s, count s vals));
        [exact Hsorted|]. now apply Hss.
    + rewrite (count_absent s vals Hs). apply count_nonneg.
  - intros s Hs.
    pose proof (sorted_last_min ((dom, count dom vals) :: rest) ("", 0)
                  (s, count s vals) Hsorted
                  (proj2 (Hss s _) (conj Hs eq_refl))) as Hle.
    rewrite <- Elst in Hle. exact Hle.
Qed.

(** C9, as the code has it.  For a non-empty dataset the insight ends with
    the fixed strategic line.  When some record has a sentiment, the first
    line names a most frequent sentiment with its share of all records of
    the dataset: the binary64 number [(count / records) * 100], shown
    rounded to a nearest tenth; when there are 3 or more distinct sentiments
    a second line names a least frequent one; the strategic line follows. *)
Theorem sentiment_insight (df : Dataset) :
  (df <> [] ->
   exists body, get_sentiment_insights df = (body ++ [strategic_trend_line])%list)
  /\ ((exists r, In r df /\ sentiment r <> None) ->
      let vals := dropna (map sentiment df) in
      let total := Z.of_nat (List.length df) in
      exists dominant minority,
        In dominant vals
        /\ (forall s, count s vals <= count dominant vals)
        /\ In minority vals
        /\ (forall s, In s vals -> count minority vals <= count s vals)
        /\ get_sentiment_insights df
           = ([dominant_sentiment_line dominant
                 (format_pct_1f (count dominant vals) total)]
              ++ (if (3 <=? List.length (unique vals))%nat
                  then [data_anomaly_line minority] else [])
              ++ [strategic_trend_line])%list
        /\ (forall s m e,
               FloatOps.Prim2SF (percentage (count dominant vals) total)
               = SpecFloat.S754_finite s m e ->
               exists t,
                 format_pct_1f (count dominant vals) total
                 = (if s then "-" else "") ++ show_tenths t
                 /\ (0 <= e -> t = Zpos m * 10 * 2 ^ e)
                 /\ (e < 0 ->
                     2 * Z.abs (Zpos m * 10 - 2 ^ (- e) * t) <= 2 ^ (- e)))).
Proof.
  split.
  - intros Hne. destruct df as [|r df]; [contradiction|].
    unfold get_sentiment_insights. eexists. rewrite app_assoc. reflexivity.
  - intros [r0 [Hr0 Hs0]] vals total.
    destruct (sentiment r0) as [s0|] eqn:Es0; [|contradiction].
    assert (Hin0 : In s0 vals).
    { apply dropna_In. rewrite <- Es0. now apply in_map. }
    destruct (sorted_counts_ends (map sentiment df) s0 Hin0)
      as (dom & rest & least & Hss & Hlast & H1 & H2 & H3 & H4 & Hlen).
    exists dom, least. repeat (split; [assumption|]). split.
    + unfold get_sentiment_insights. destruct df as [|r df]; [contradiction|].
      rewrite Hlast, Hlen, Hss. reflexivity.
    + intros s m e Hq. unfold format_pct_1f. now apply format_fixed_nearest.
Qed.

Lemma sentiment_insight_witness :
  (exists r, In r dataset_three_sentiments /\ sentiment r <> None)
  /\ get_sentiment_insights dataset_three_sentiments
     = [ dominant_sentiment_line "Positive" "50.0";
         data_anomaly_line "Neutral";
         strategic_trend_line ]
  /\ exists dominant minority,
       (forall s, count s (dropna (map sentiment dataset_three_sentiments))
                  <= count dominant (dropna (map sentiment dataset_three_sentiments)))
       /\ get_sentiment_insights dataset_three_sentiments
          = [ dominant_sentiment_line dominant
                (format_pct_1f
                   (count dominant (dropna (map sentiment dataset_three_sentiments))) 6);
              data_anomaly_line minority;
              strategic_trend_line ].
Proof.
  assert (H : exists r, In r dataset_three_sentiments /\ sentiment r <> None).
  { exists (post (day 2024 1 1) "X" "Negative" "NY" 10 "Video").
    split; [now left | discriminate]. }
  split; [exact H|]. split; [reflexivity|].
  destruct (proj2 (sentiment_insight dataset_three_sentiments) H)
    as (dominant & minority & _ & Hmax & _ & _ & Hres & _).
  exists dominant, minority. split; [exact Hmax | exact Hres].
Defined.

(** C9 as the specification states it fails: the dataset is not empty but
    its only record has no sentiment, and the insight is the strategic line
    alone: it names no sentiment.  The dataset is the cleaned form of a
    table with an empty [Sentiment] cell. *)
Lemma sentiment_insight_without_sentiments :
  option_map rows_of (fst (clean_data iso_date decimal_integer table_nulls))
  = Some dataset_nulls
  /\ dataset_nulls <> []
  /\ get_sentiment_insights dataset_nulls = [strategic_trend_line]
  /\ forall dominant pct,
       ~ In (dominant_sentiment_line dominant pct)
            (get_sentiment_insights dataset_nulls).
Proof.
  split; [vm_compute; reflexivity|]. split; [discriminate|].
  split; [reflexivity|].
  intros dominant pct [H | []]. discriminate H.
Qed.

(** ** The scenarios of the specification *)

Example scenario_cleaning :
  option_map rows_of (fst (clean_data iso_date decimal_integer example_table))
  = Some example_dataset.
Proof. vm_compute. reflexivity. Qed.

Example scenario_aggregates :
  value_counts (map sentiment example_dataset) = [("Positive", 1); ("Negative", 1)]
  /\ platform_engagements example_dataset = [("X", 10); ("Y", 5)]
  /\ get_sentiment_insights example_dataset
     = [dominant_sentiment_line "Positive" "50.0"; strategic_trend_line].
Proof. repeat split. Qed.

Example scenario_missing_location :
  clean_data iso_date decimal_integer
    [("Date", []); ("Platform", []); ("Sentiment", []); ("Engagements", []);
     ("Media_Type", [])]
  = (None,
     [st_error "Error: The following required columns are missing from your CSV file: location"]).
Proof. reflexivity. Qed.

Example scenario_empty_filter :
  let w := mkWidgets (days_of_civil 2025 1 1) (days_of_civil 2025 12 31)
                     (Some "All") (Some "All") (Some "All") in
  filtered_df example_dataset w = []
  /\ script iso_date decimal_integer (Some example_table) w
     = (preamble
        ++ [st_success "CSV file uploaded and processed successfully!";
            st_sidebar_header "Filter Data";
            st_warning "No data available for the selected filters. Please adjust your filter settings."])%list.
Proof. split; [reflexivity | vm_compute; reflexivity]. Qed.

(** * Further properties of the code *)

(** ** Column names *)

(** The character map of [normalize_column] after the [strip]. *)
Lemma normalize_column_chars (col : string) :
  normalize_column col
  = PyStr.map_chars
      (fun c => if Ascii.eqb (PyStr.lower_char c) " " then "_"%char
                else PyStr.lower_char c)
      (PyStr.strip col).
Proof.
  unfold normalize_column, PyStr.replace, PyStr.lower.
  induction (PyStr.strip col) as [|c s IH]; simpl; [reflexivity|].
  now rewrite IH.
Qed.

Lemma normal_char_facts (c : ascii) :
  let g := fun c => if Ascii.eqb (PyStr.lower_char c) " " then "_"%char
                    else PyStr.lower_char c in
  g (g c) = g c
  /\ g c <> " "%char
  /\ PyStr.lower_char (g c) = g c
  /\ (PyStr.is_space c = false -> PyStr.is_space (g c) = false).
Proof.
  destruct c as [[] [] [] [] [] [] [] []]; vm_compute;
    repeat split; solve [reflexivity | discriminate | auto].
Qed.

Lemma lstrip_head (s : string) :
  match PyStr.lstrip s with
  | EmptyString => True
  | String c _ => PyStr.is_space c = false
  end.
Proof.
  induction s as [|c s IH]; simpl; [exact I|].
  destruct (PyStr.is_space c) eqn:E; [exact IH | exact E].
Qed.

Lemma rstrip_idempotent (s : string) : PyStr.rstrip (PyStr.rstrip s) = PyStr.rstrip s.
Proof.
  induction s as [|c s IH]; simpl; [reflexivity|].
  destruct (PyStr.rstrip s) as [|c' r] eqn:E.
  - destruct (PyStr.is_space c) eqn:Ec; simpl; [reflexivity | now rewrite Ec].
  - simpl. simpl in IH. now rewrite IH.
Qed.

(** [rstrip] keeps the first character when it is no white space. *)
Lemma rstrip_head (c : ascii) (s : string) :
  PyStr.is_space c = false ->
  exists r, PyStr.rstrip (String c s) = String c r.
Proof.
  intros Hc. simpl. destruct (PyStr.rstrip s); [rewrite Hc|]; eauto.
Qed.

Section Stripped.

Variable g : ascii -> ascii.
Hypothesis g_space : forall c, PyStr.is_space c = false -> PyStr.is_space (g c) = false.

Lemma rstrip_map_chars (s : string) :
  PyStr.rstrip s = s -> PyStr.rstrip (PyStr.map_chars g s) = PyStr.map_chars g s.
Proof.
  induction s as [|c s IH]; simpl; [reflexivity|].
  destruct (PyStr.rstrip s) as [|c' r] eqn:E.
  - destruct (PyStr.is_space c) eqn:Ec; [discriminate|].
    intros H. injection H as <-. simpl. now rewrite (g_space c Ec).
  - intros H. injection H as H. rewrite H in IH. specialize (IH eq_refl).
    rewrite IH, <- H. reflexivity.
Qed.

Lemma lstrip_map_chars (s : string) :
  PyStr.lstrip s = s -> PyStr.lstrip (PyStr.map_chars g s) = PyStr.map_chars g s.
Proof.
  destruct s as [|c s]; simpl; [reflexivity|].
  destruct (PyStr.is_space c) eqn:Ec.
  - intros H. pose proof (lstrip_head s) as Hh. rewrite H in Hh. congruence.
  - intros _. now rewrite (g_space c Ec).
Qed.

End Stripped.

Lemma lstrip_strip (s : string) : PyStr.lstrip (PyStr.strip s) = PyStr.strip s.
Proof.
  unfold PyStr.strip. pose proof (lstrip_head s) as Hh.
  destruct (PyStr.lstrip s) as [|c t]; [reflexivity|].
  destruct (rstrip_head c t Hh) as [r ->]. simpl. now rewrite Hh.
Qed.

Lemma rstrip_strip (s : string) : PyStr.rstrip (PyStr.strip s) = PyStr.strip s.
Proof. apply rstrip_idempotent. Qed.

Lemma map_chars_In (g : ascii -> ascii) (s : string) (c : ascii) :
  In c (list_ascii_of_string (PyStr.map_chars g s)) ->
  exists c0, c = g c0.
Proof.
  induction s as [|x s IH]; simpl; [contradiction|].
  intros [<- | H]; eauto.
Qed.

Lemma map_chars_fixed (g : ascii -> ascii) (s : string) :
  (forall c, In c (list_ascii_of_string s) -> g c = c) -> PyStr.map_chars g s = s.
Proof.
  induction s as [|x s IH]; simpl; intros H; [reflexivity|].
  rewrite (H x (or_introl eq_refl)), IH; auto.
Qed.

Lemma normalize_column_stripped (col : string) :
  PyStr.strip (normalize_column col) = normalize_column col.
Proof.
  rewrite normalize_column_chars. unfold PyStr.strip at 1.
  rewrite lstrip_map_chars, rstrip_map_chars;
    auto using lstrip_strip, rstrip_strip;
    intros c; apply (normal_char_facts c).
Qed.

(** A normalized column name has no space and no ASCII capital letter, and
    neither starts nor ends with white space. *)
Theorem normalize_column_shape (col : string) :
  (forall c, In c (list_ascii_of_string (normalize_column col)) ->
             c <> " "%char
             /\ ~ (65 <= N_of_ascii c <= 90)%N)
  /\ PyStr.lstrip (normalize_column col) = normalize_column col
  /\ PyStr.rstrip (normalize_column col) = normalize_column col.
Proof.
  split.
  - rewrite normalize_column_chars.
    intros c Hc. apply map_chars_In in Hc as [c0 ->].
    destruct (normal_char_facts c0) as (_ & H2 & H3 & _). split; [exact H2|].
    cbv beta in H3. intros [Hlo Hhi]. unfold PyStr.lower_char in H3 at 1.
    apply N.leb_le in Hlo, Hhi. rewrite Hlo, Hhi in H3. simpl in H3.
    apply (f_equal N_of_ascii) in H3. rewrite N_ascii_embedding in H3; [lia|].
    apply N.leb_le in Hhi. lia.
  - pose proof (lstrip_strip (normalize_column col)) as Hl.
    pose proof (rstrip_strip (normalize_column col)) as Hr.
    rewrite normalize_column_stripped in Hl, Hr. now split.
Qed.

Lemma normalize_column_fixed (col : string) :
  normalize_column (normalize_column col) = normalize_column col.
Proof.
  rewrite (normalize_column_chars (normalize_column col)).
  rewrite normalize_column_stripped.
  rewrite normalize_column_chars. apply map_chars_fixed.
  intros c Hc. apply map_chars_In in Hc as [c0 ->].
  apply (normal_char_facts c0).
Qed.

(** Normalizing a normalized column name changes nothing, and so does
    renaming the columns of a table whose columns were renamed. *)
Theorem normalize_column_idempotent (col : string) (df : DataFrame) :
  normalize_column (normalize_column col) = normalize_column col
  /\ rename_columns (rename_columns df) = rename_columns df.
Proof.
  split; [apply normalize_column_fixed|].
  unfold rename_columns. rewrite map_map. apply map_ext. intros c. simpl.
  now rewrite normalize_column_fixed.
Qed.

(** ** The cleaned table *)

Lemma mapM_Forall {A B : Type} (f : A -> result B) (P : B -> Prop)
      (l : list A) (r : list B) :
  (forall a b, f a = Ok b -> P b) -> mapM f l = Ok r -> Forall P r.
Proof.
  intros Hf. revert r. induction l as [|a l IH]; simpl; intros r H.
  - injection H as <-. constructor.
  - destruct (f a) as [b|e] eqn:Ea; simpl in H; [|discriminate].
    destruct (mapM f l) as [bs|e]; simpl in H; [|discriminate].
    injection H as <-. constructor; eauto.
Qed.

(** [mapM] of a function that returns its argument on every element. *)
Lemma mapM_fixed {A : Type} (f : A -> result A) (l : list A) :
  Forall (fun a => f a = Ok a) l -> mapM f l = Ok l.
Proof.
  induction 1 as [|a l Ha Hl IH]; simpl; [reflexivity|].
  now rewrite Ha, IH.
Qed.

(** Assigning to a column the cells it has changes nothing. *)
Lemma setitem_same (df : DataFrame) (name : string) (s : Series) :
  getitem df name = OneColumn s -> setitem df name s = df.
Proof.
  unfold getitem, setitem. induction df as [|c df IH]; simpl; [reflexivity|].
  destruct (String.eqb (fst c) name) eqn:E; simpl.
  - destruct (filter (fun c => String.eqb (fst c) name) df) as [|c2 l] eqn:F;
      simpl; [|discriminate].
    intros H. injection H as H. f_equal.
    + destruct c; simpl in *. now subst.
    + clear IH. induction df as [|x df IH]; simpl; [reflexivity|].
      simpl in F. destruct (String.eqb (fst x) name); [discriminate|].
      now rewrite IH.
  - intros H. now rewrite IH.
Qed.

Lemma getitem_OneColumn_inv (f : selection -> result Series) (sel : selection)
      (r : Series) :
  (forall cols, f (Frame cols) = Raise NotOneDimensional) ->
  (exists n, f KeyError = Raise (NoSuchColumn n)) ->
  f sel = Ok r -> exists s, sel = OneColumn s.
Proof.
  intros Hf [n Hk] H. destruct sel as [|s|cols]; eauto; congruence.
Qed.

Lemma rename_columns_fixed (df : DataFrame) :
  Forall (fun n => normalize_column n = n) (columns df) -> rename_columns df = df.
Proof.
  unfold rename_columns, columns. induction df as [|[n s] df IH]; simpl; intros H.
  - reflexivity.
  - apply Forall_cons_iff in H as [Hn H]. simpl in Hn. now rewrite Hn, IH.
Qed.

Lemma fillna0_fixed (s : Series) :
  Forall (fun c => exists z, c = Num z) s -> fillna0 s = s.
Proof.
  unfold fillna0. induction 1 as [|c s [z ->] Hs IH]; simpl; [reflexivity|].
  now rewrite IH.
Qed.

Section CleanedTable.

Variable pd : string -> option Z.   (* the parser of [pd.to_datetime] *)
Variable pn : string -> option Z.   (* the parser of [pd.to_numeric] *)

(** What a successful conversion leaves in the two converted columns. *)
Lemma convert_types_columns (df df' : DataFrame) :
  convert_types pd pn df = Ok df' ->
  exists d0 e0 d e,
    getitem df "date" = OneColumn d0
    /\ getitem df "engagements" = OneColumn e0
    /\ getitem df' "date" = OneColumn d
    /\ getitem df' "engagements" = OneColumn e
    /\ List.length d = List.length d0
    /\ List.length e = List.length e0
    /\ Forall (fun c => c = Null \/ exists t, c = Ts t) d
    /\ Forall (fun c => exists z, c = Num z) e
    /\ columns df' = columns df.
Proof.
  intros H. apply convert_types_Ok in H as (d & e & Hd & He & ->).
  destruct (getitem df "date") as [|d0|cols] eqn:Gd; simpl in Hd;
    try discriminate.
  rewrite getitem_setitem_other in He by discriminate.
  destruct (getitem df "engagements") as [|e0|cols] eqn:Ge; simpl in He;
    try discriminate.
  exists d0, e0, d, (fillna0 e). repeat split.
  - rewrite getitem_setitem_other by discriminate.
    now apply getitem_setitem_same with (old := d0).
  - apply getitem_setitem_same with (old := e0).
    now rewrite getitem_setitem_other by discriminate.
  - now apply mapM_Ok_length in Hd.
  - unfold fillna0. rewrite length_map. now apply mapM_Ok_length in He.
  - eapply mapM_Forall; [|exact Hd].
    intros [|z|s|t] b Hb; simpl in Hb.
    + injection Hb as <-. now left.
    + injection Hb as <-. right. eauto.
    + destruct (pd s); [|discriminate]. injection Hb as <-. right. eauto.
    + injection Hb as <-. right. eauto.
  - assert (Hcells : Forall (fun c => c = Null \/ exists z, c = Num z) e).
    { eapply mapM_Forall; [|exact He].
      intros [|z|s|t] b Hb; simpl in Hb.
      - injection Hb as <-. now left.
      - injection Hb as <-. right. eauto.
      - destruct (pn s); [|discriminate]. injection Hb as <-. right. eauto.
      - injection Hb as <-. right. eauto. }
    unfold fillna0. apply Forall_map.
    eapply Forall_impl; [|exact Hcells].
    intros c [-> | [z ->]]; eauto.
  - now rewrite !columns_setitem.
Qed.

(** When [clean_data] returns a table it shows no message; the table has
    every required column, exactly one [date] column, which holds only
    timestamps and nulls, and exactly one [engagements] column, which holds
    only numbers; both have as many cells as in the input. *)
Theorem clean_data_types (df df' : DataFrame) (shown : list st_call) :
  clean_data pd pn df = (Some df', shown) ->
  shown = []
  /\ (forall c, In c required_columns -> In c (columns df'))
  /\ exists d0 e0 d e,
       getitem (rename_columns df) "date" = OneColumn d0
       /\ getitem (rename_columns df) "engagements" = OneColumn e0
       /\ getitem df' "date" = OneColumn d
       /\ getitem df' "engagements" = OneColumn e
       /\ List.length d = List.length d0
       /\ List.length e = List.length e0
       /\ Forall (fun c => c = Null \/ exists t, c = Ts t) d
       /\ Forall (fun c => exists z, c = Num z) e.
Proof.
  intros H. apply clean_data_Some in H as (Hm & Hc & Hs).
  destruct (convert_types_columns _ _ Hc)
    as (d0 & e0 & d & e & H1 & H2 & H3 & H4 & H5 & H6 & H7 & H8 & H9).
  split; [exact Hs|]. split.
  - intros c Hc'. rewrite H9.
    destruct (in_dec string_dec c (columns (rename_columns df))) as [Hin|Hn];
      [exact Hin|].
    assert (Hmiss : In c (missing_columns (rename_columns df)))
      by (apply missing_columns_In; auto).
    rewrite Hm in Hmiss. contradiction.
  - exists d0, e0, d, e. auto 10.
Qed.

(** Cleaning a cleaned table returns the same table, and shows nothing. *)
Theorem clean_data_idempotent (df df' : DataFrame) (shown : list st_call) :
  clean_data pd pn df = (Some df', shown) ->
  clean_data pd pn df' = (Some df', []).
Proof.
  intros H. apply clean_data_Some in H as (Hm & Hc & _).
  destruct (convert_types_columns _ _ Hc)
    as (d0 & e0 & d & e & _ & _ & H3 & H4 & _ & _ & H7 & H8 & H9).
  assert (Hren : rename_columns df' = df').
  { apply rename_columns_fixed. rewrite H9, columns_rename.
    apply Forall_map, Forall_forall. intros n _.
    apply normalize_column_fixed. }
  assert (Hmiss : missing_columns df' = []).
  { unfold missing_columns. rewrite H9. exact Hm. }
  assert (Hd : mapM (to_datetime_cell pd) d = Ok d).
  { apply mapM_fixed. eapply Forall_impl; [|exact H7].
    intros c [-> | [t ->]]; reflexivity. }
  assert (He : mapM (to_numeric_cell pn) e = Ok e).
  { apply mapM_fixed. eapply Forall_impl; [|exact H8].
    intros c [z ->]. reflexivity. }
  unfold clean_data. rewrite Hren, Hmiss. unfold convert_types.
  rewrite H3. simpl. rewrite Hd. simpl.
  rewrite (setitem_same _ _ _ H3), H4. simpl. rewrite He. simpl.
  rewrite (fillna0_fixed _ H8), (setitem_same _ _ _ H4). reflexivity.
Qed.

End CleanedTable.

Lemma clean_data_types_witness :
  exists df' d e,
    clean_data iso_date decimal_integer table_null_engagements = (Some df', [])
    /\ getitem df' "date" = OneColumn d
    /\ getitem df' "engagements" = OneColumn e
    /\ Forall (fun c => c = Null \/ exists t, c = Ts t) d
    /\ Forall (fun c => exists z, c = Num z) e.
Proof.
  eexists.
  assert (H : clean_data iso_date decimal_integer table_null_engagements
              = (Some _, [])) by (vm_compute; reflexivity).
  destruct (clean_data_types iso_date decimal_integer _ _ _ H)
    as (_ & _ & d0 & e0 & d & e & _ & _ & H3 & H4 & _ & _ & H7 & H8).
  exists d, e. split; [exact H|]. auto.
Defined.

Lemma clean_data_idempotent_witness :
  exists df',
    clean_data iso_date decimal_integer example_table = (Some df', [])
    /\ clean_data iso_date decimal_integer df' = (Some df', []).
Proof.
  eexists.
  assert (H : clean_data iso_date decimal_integer example_table
              = (Some _, [])) by (vm_compute; reflexivity).
  split; [exact H|].
  exact (clean_data_idempotent iso_date decimal_integer _ _ _ H).
Defined.

(** ** More on the filter *)

Lemma matches_dated (w : widgets) (r : record) :
  matches w r = true ->
  exists t, date r = Some t
            /\ start_date w <= dt_date t <= end_date w.
Proof.
  unfold matches, in_date_range. rewrite !andb_true_iff.
  intros [[[H _] _] _]. destruct (date r) as [t|]; [|discriminate].
  apply andb_true_iff in H as [H1 H2].
  apply Z.leb_le in H1, H2. eauto.
Qed.

(** Filtering with one setting of the controls and then with another gives
    the same records as in the other order. *)
Theorem filtered_df_commutes (ds : Dataset) (w1 w2 : widgets) :
  filtered_df (filtered_df ds w1) w2 = filtered_df (filtered_df ds w2) w1.
Proof.
  rewrite !filtered_df_matches, !filter_and.
  apply filter_ext. intros r. apply andb_comm.
Qed.

(** With ['All'] in the three select boxes and a date range that covers the
    date of every record, the filter keeps the whole dataset. *)
Theorem filtered_df_keeps_all (ds : Dataset) (w : widgets) :
  selected_platform w = Some "All" ->
  selected_sentiment w = Some "All" ->
  selected_media_type w = Some "All" ->
  (forall r, In r ds ->
             exists t, date r = Some t
                       /\ start_date w <= dt_date t <= end_date w) ->
  filtered_df ds w = ds.
Proof.
  intros Hp Hs Hm Hall. rewrite filtered_df_matches.
  apply forallb_filter_id, forallb_forall. intros r Hr.
  destruct (Hall r Hr) as (t & Ht & H1 & H2).
  unfold matches, in_date_range. rewrite Hp, Hs, Hm, Ht. simpl.
  rewrite !andb_true_r. apply andb_true_iff. split; now apply Z.leb_le.
Qed.

Lemma filtered_df_keeps_all_witness :
  (forall r, In r example_dataset ->
             exists t, date r = Some t
                       /\ start_date example_widgets <= dt_date t
                          <= end_date example_widgets)
  /\ filtered_df example_dataset example_widgets = example_dataset.
Proof.
  assert (H : forall r, In r example_dataset ->
                exists t, date r = Some t
                          /\ start_date example_widgets <= dt_date t
                             <= end_date example_widgets).
  { intros r [<- | [<- | []]]; eexists; (split; [reflexivity|]);
      vm_compute; split; discriminate. }
  split; [exact H|].
  exact (filtered_df_keeps_all example_dataset example_widgets
           eq_refl eq_refl eq_refl H).
Defined.

(** Every record the filter keeps has a date, and the series of a
    filtered dataset has its dates in the range of the controls; when the
    engagements of the dataset are in the exact range, the values of the
    series add up to the engagements of the filtered dataset. *)
Theorem filtered_series_in_range (ds : Dataset) (w : widgets) :
  let fdf := filtered_df ds w in
  (forall r, In r fdf -> date r <> None)
  /\ (forall t v, In (t, v) (engagement_by_date fdf) ->
                  start_date w <= dt_date t <= end_date w)
  /\ (in_exact_range ds ->
      in_exact_range fdf
      /\ sum (values (engagement_by_date fdf)) = sum (map engagements fdf)).
Proof.
  intros fdf.
  assert (Hd : forall r, In r fdf ->
                 exists t, date r = Some t
                           /\ start_date w <= dt_date t <= end_date w).
  { intros r Hr. unfold fdf in Hr. rewrite filtered_df_matches in Hr.
    apply filter_In in Hr as [_ Hr]. now apply matches_dated in Hr. }
  split; [|split].
  - intros r Hr. destruct (Hd r Hr) as (t & -> & _). discriminate.
  - intros t v Hin.
    assert (Hk : In t (keys (engagement_by_date fdf)))
      by (apply (in_map fst) in Hin; exact Hin).
    apply (proj1 (groupby_sum_keys Z.compare date Z.compare_eq_iff fdf t)) in Hk.
    destruct Hk as (r & Hr & Ht). destruct (Hd r Hr) as (t' & Ht' & Hrange).
    congruence.
  - intros Hrange. split.
    { unfold fdf. rewrite filtered_df_matches.
      now apply in_exact_range_filter. }
    unfold engagement_by_date. rewrite groupby_sum_total. f_equal. f_equal.
    apply forallb_filter_id, forallb_forall. intros r Hr.
    destruct (Hd r Hr) as (t & -> & _). reflexivity.
Qed.

Lemma filtered_series_in_range_witness :
  in_exact_range example_dataset
  /\ sum (values (engagement_by_date
                    (filtered_df example_dataset example_widgets)))
     = sum (map engagements (filtered_df example_dataset example_widgets)).
Proof.
  assert (H : in_exact_range example_dataset) by (vm_compute; discriminate).
  split; [exact H|].
  exact (proj2 (proj2 (proj2 (filtered_series_in_range
                                example_dataset example_widgets)) H)).
Defined.

(** ** More on the aggregates *)

Lemma filter_disjoint_length {A : Type} (p q : A -> bool) (l : list A) :
  (forall y, In y l -> p y = true -> q y = false) ->
  List.length (filter (fun y => p y || q y) l)
  = (List.length (filter p l) + List.length (filter q l))%nat.
Proof.
  induction l as [|y l IH]; intros H; simpl; [reflexivity|].
  assert (IH' := IH (fun z Hz => H z (or_intror Hz))).
  destruct (p y) eqn:Ep; simpl.
  - rewrite (H y (or_introl eq_refl) Ep). simpl. now rewrite IH'.
  - destruct (q y); simpl; rewrite IH'; lia.
Qed.

(** The counts of distinct values add up to the number of the elements
    that are among them. *)
Lemma count_sum_over (u l : list string) :
  NoDup u ->
  sum (map (fun k => count k l) u)
  = Z.of_nat (List.length (filter (fun y => PyStr.mem y u) l)).
Proof.
  induction 1 as [|k u Hk Hu IH]; simpl.
  - induction l as [|y l IHl]; simpl; [reflexivity | exact IHl].
  - rewrite IH. unfold count.
    rewrite (filter_ext (fun y => String.eqb y k || PyStr.mem y u)
                        (fun y => String.eqb k y || PyStr.mem y u))
      by (intros y; now rewrite String.eqb_sym).
    rewrite filter_disjoint_length; [lia|].
    intros y _ Hy. apply String.eqb_eq in Hy. subst y.
    destruct (PyStr.mem k u) eqn:E; [|reflexivity].
    apply mem_In in E. contradiction.
Qed.

Lemma values_map_pair {K : Type} (f : K -> Z) (u : list K) :
  values (map (fun k => (k, f k)) u) = map f u.
Proof. unfold values. rewrite map_map. reflexivity. Qed.

Lemma keys_map_pair {K : Type} (f : K -> Z) (u : list K) :
  keys (map (fun k => (k, f k)) u) = u.
Proof. unfold keys. rewrite map_map. apply map_id. Qed.

Lemma keys_sort_perm {K : Type} (a : Aggregate K) :
  Permutation (keys (sort_values_desc a)) (keys a).
Proof. apply Permutation_map, sort_values_desc_perm. Qed.

(** The counts of [value_counts] add up to the number of values that are
    not null, and no value is counted twice. *)
Theorem value_counts_total (col : list (option string)) :
  sum (values (value_counts col)) = Z.of_nat (List.length (dropna col))
  /\ NoDup (keys (value_counts col)).
Proof.
  unfold value_counts. split.
  - rewrite sum_sort_values_desc, values_map_pair.
    rewrite count_sum_over by apply unique_NoDup.
    do 2 f_equal. apply forallb_filter_id, forallb_forall.
    intros y Hy. apply mem_In. now apply (proj2 (unique_In _ _)).
  - eapply Permutation_NoDup; [symmetry; apply keys_sort_perm|].
    rewrite keys_map_pair. apply unique_NoDup.
Qed.

Lemma sorted_lt_NoDup {K : Type} (cmp : K -> K -> comparison) (l : list K) :
  (forall a, cmp a a = Eq) ->
  StronglySorted (lt_by cmp) l -> NoDup l.
Proof.
  intros Hrefl. induction 1 as [|a l Hs IH Ha]; constructor; [|exact IH].
  intros Hin. rewrite Forall_forall in Ha. specialize (Ha a Hin).
  unfold lt_by in Ha. rewrite Hrefl in Ha. discriminate.
Qed.

(** The platform aggregate has one entry for each platform that occurs in
    the dataset, and no other entry. *)
Theorem platform_engagements_keys (df : Dataset) :
  NoDup (keys (platform_engagements df))
  /\ forall p, In p (keys (platform_engagements df)) <->
               exists r, In r df /\ platform r = Some p.
Proof.
  unfold platform_engagements. split.
  - eapply Permutation_NoDup; [symmetry; apply keys_sort_perm|].
    apply (sorted_lt_NoDup String.compare).
    + intros a. now apply string_compare_eq.
    + exact (groupby_sum_sorted String.compare platform string_compare_eq
               string_compare_trans string_compare_gt df).
  - intros p. rewrite <- (groupby_sum_keys String.compare platform
                            string_compare_eq df p).
    split; apply Permutation_in; [|symmetry]; apply keys_sort_perm.
Qed.




(** ** The other insight generators *)

(** When some record has a media type, the first line names a most
    frequent media type; with 2 or more distinct media types a second line
    names a least frequent one; the fixed line on the content mix follows. *)
Theorem media_type_insight (df : Dataset) :
  (exists r, In r df /\ media_type r <> None) ->
  let vals := dropna (map media_type df) in
  exists top least,
    In top vals
    /\ (forall s, count s vals <= count top vals)
    /\ In least vals
    /\ (forall s, In s vals -> count least vals <= count s vals)
    /\ get_media_type_insights df
       = ([dominant_format_line top]
          ++ (if (2 <=? List.length (unique vals))%nat
              then [untapped_potential_line least] else [])
          ++ [content_mix_line])%list.
Proof.
  intros [r0 [Hr0 Hm0]] vals.
  destruct (media_type r0) as [s0|] eqn:Es0; [|contradiction].
  assert (Hin0 : In s0 vals).
  { apply dropna_In. rewrite <- Es0. now apply in_map. }
  destruct (sorted_counts_ends (map media_type df) s0 Hin0)
    as (top & rest & least & Hss & Hlast & H1 & H2 & H3 & H4 & Hlen).
  exists top, least. repeat (split; [assumption|]).
  unfold get_media_type_insights. destruct df as [|r df]; [contradiction|].
  rewrite Hlast, Hlen. rewrite Hss. reflexivity.
Qed.

Lemma media_type_insight_witness :
  (exists r, In r dataset_three_days /\ media_type r <> None)
  /\ get_media_type_insights dataset_three_days
     = [ dominant_format_line "Video";
         untapped_potential_line "Photo";
         content_mix_line ]
  /\ exists top least,
       (forall s, count s (dropna (map media_type dataset_three_days))
                  <= count top (dropna (map media_type dataset_three_days)))
       /\ get_media_type_insights dataset_three_days
          = [ dominant_format_line top;
              untapped_potential_line least;
              content_mix_line ].
Proof.
  assert (H : exists r, In r dataset_three_days /\ media_type r <> None).
  { exists (post (day 2024 1 2) "X" "Positive" "NY" 10 "Video").
    split; [now left | discriminate]. }
  split; [exact H|]. split; [reflexivity|].
  destruct (media_type_insight dataset_three_days H)
    as (top & least & _ & Hmax & _ & _ & Hres).
  exists top, least. split; [exact Hmax | exact Hres].
Defined.

(** The head of a sorted aggregate of groups, when some record has a key. *)
Lemma sorted_groups_head (key : record -> option string) (df : Dataset) :
  (exists r, In r df /\ key r <> None) ->
  exists top v rest,
    sort_values_desc (groupby_sum String.compare key df) = (top, v) :: rest
    /\ v = total_of String.compare key top df
    /\ (exists r, In r df /\ key r = Some top)
    /\ forall k x, In (k, x) (groupby_sum String.compare key df) -> x <= v.
Proof.
  intros [r0 [Hr0 Hk0]]. destruct (key r0) as [k0|] eqn:Ek0; [|contradiction].
  assert (Hin0 : In k0 (keys (groupby_sum String.compare key df))).
  { apply (groupby_sum_keys String.compare key string_compare_eq). eauto. }
  assert (Hsorted := sort_values_desc_sorted (groupby_sum String.compare key df)).
  destruct (sort_values_desc (groupby_sum String.compare key df))
    as [|[top v] rest] eqn:Ess.
  { apply in_map_iff in Hin0 as [x [_ Hx]].
    apply (proj2 (sort_values_desc_In _ _)) in Hx. rewrite Ess in Hx.
    contradiction. }
  assert (Htop : In (top, v) (groupby_sum String.compare key df)).
  { apply (proj1 (sort_values_desc_In _ _)). rewrite Ess. now left. }
  exists top, v, rest. split; [reflexivity|]. split; [|split].
  - exact (groupby_sum_value _ _ string_compare_eq string_compare_trans
             string_compare_gt _ _ _ Htop).
  - apply (groupby_sum_keys String.compare key string_compare_eq).
    apply (in_map fst) in Htop. exact Htop.
  - intros k x Hx. apply (proj2 (sort_values_desc_In _ _)) in Hx.
    rewrite Ess in Hx. exact (sorted_head_max (top, v) rest (k, x) Hsorted Hx).
Qed.

(** For a dataset in the exact range in which some record has a platform,
    the first line names a platform of greatest summed engagements with its
    share of the sum over all platforms, the binary64 number
    [(engagements / total) * 100] in the [.1f] format; with 2 or more
    platforms the line on the performance gap follows; the fixed strategic
    line ends the list.  The two operands of the quotient are within 2^53 in
    absolute value. *)
Theorem platform_insight (df : Dataset) :
  in_exact_range df ->
  (exists r, In r df /\ platform r <> None) ->
  let pe := platform_engagements df in
  exists top v,
    In (top, v) pe
    /\ v = total_of String.compare platform top df
    /\ Z.abs v <= 2 ^ 53
    /\ Z.abs (sum (values pe)) <= 2 ^ 53
    /\ (forall p x, In (p, x) pe -> x <= v)
    /\ get_platform_insights df
       = ([key_finding_line top (format_pct_1f v (sum (values pe)))]
          ++ (if (2 <=? List.length pe)%nat then [performance_gap_line] else [])
          ++ [strategic_implication_line])%list.
Proof.
  intros Hrange H pe.
  destruct (sorted_groups_head platform df H)
    as (top & v & rest & Hss & Hv & _ & Hmax).
  assert (Hdf : df <> []) by (destruct H as [r [Hr _]]; now destruct df).
  exists top, v. split; [|split; [exact Hv|split; [|split; [|split]]]].
  - unfold pe, platform_engagements. rewrite Hss. now left.
  - rewrite Hv. unfold total_of. now apply part_sum_in_range.
  - unfold pe, platform_engagements.
    rewrite sum_sort_values_desc, groupby_sum_total.
    now apply part_sum_in_range.
  - intros p x Hin. apply (Hmax p).
    now apply (proj1 (sort_values_desc_In _ _)).
  - unfold get_platform_insights. destruct df as [|r df]; [contradiction|].
    subst pe. unfold platform_engagements. rewrite Hss. reflexivity.
Qed.

Lemma platform_insight_witness :
  in_exact_range example_dataset
  /\ (exists r, In r example_dataset /\ platform r <> None)
  /\ get_platform_insights example_dataset
     = [ key_finding_line "X" "66.7";
         performance_gap_line;
         strategic_implication_line ]
  /\ exists top v,
       In (top, v) (platform_engagements example_dataset)
       /\ (forall p x, In (p, x) (platform_engagements example_dataset) -> x <= v).
Proof.
  assert (H : exists r, In r example_dataset /\ platform r <> None).
  { exists (post (day 2024 1 1) "X" "Positive" "NY" 10 "Video").
    split; [now left | discriminate]. }
  assert (Hr : in_exact_range example_dataset) by (vm_compute; discriminate).
  split; [exact Hr|]. split; [exact H|]. split; [vm_compute; reflexivity|].
  destruct (platform_insight example_dataset Hr H)
    as (top & v & Hin & _ & _ & _ & Hmax & _).
  exists top, v. split; [exact Hin | exact Hmax].
Defined.



(** ** When a generator emits nothing *)

Lemma groupby_sum_nil_iff {K : Type} (cmp : K -> K -> comparison)
      (key : record -> option K) (df : Dataset) :
  (forall a b, cmp a b = Eq <-> a = b) ->
  (groupby_sum cmp key df = [] <-> forall r, In r df -> key r = None).
Proof.
  intros Heq. split; [|apply groupby_sum_all_null].
  intros E r Hr. destruct (key r) as [k|] eqn:Ek; [|reflexivity].
  assert (Hin : In k (keys (groupby_sum cmp key df)))
    by (apply (groupby_sum_keys cmp key Heq); eauto).
  rewrite E in Hin. contradiction.
Qed.

Lemma location_engagements_nil_iff (df : Dataset) :
  location_engagements df = [] <-> forall r, In r df -> location r = None.
Proof.
  rewrite <- (groupby_sum_nil_iff String.compare location df string_compare_eq).
  unfold location_engagements, nlargest, engagement_by_location.
  pose proof (sort_values_desc_length (groupby_sum String.compare location df))
    as Hlen.
  destruct (groupby_sum String.compare location df) as [|x g];
    destruct (sort_values_desc _) as [|y s]; simpl in *;
    try discriminate; split; intros; try reflexivity; discriminate.
Qed.

Lemma get_location_insights_nil_iff (df : Dataset) :
  get_location_insights df = [] <-> forall r, In r df -> location r = None.
Proof.
  unfold get_location_insights. destruct df as [|r df].
  - split; [intros _ x [] | reflexivity].
  - destruct (forallb (fun r => isnull (location r)) (r :: df)) eqn:F.
    + split; [|reflexivity]. intros _ x Hx.
      rewrite forallb_forall in F. specialize (F x Hx).
      now destruct (location x).
    + split.
      * intros H. apply app_eq_nil in H as [_ H].
        apply app_eq_nil in H as [_ H]. discriminate.
      * intros Hall. exfalso.
        assert (F' : forallb (fun r => isnull (location r)) (r :: df) = true).
        { apply forallb_forall. intros x Hx. now rewrite (Hall x Hx). }
        congruence.
Qed.

(** The script shows the location chart exactly when
    [get_location_insights] has something to say about it: both are empty
    exactly when no record has a location. *)
Theorem location_chart_and_insight_agree (df : Dataset) :
  (location_engagements df = [] <-> get_location_insights df = [])
  /\ (location_engagements df = [] <-> forall r, In r df -> location r = None).
Proof.
  split; [|apply location_engagements_nil_iff].
  now rewrite location_engagements_nil_iff, get_location_insights_nil_iff.
Qed.

Lemma tail_line_not_nil {A : Type} (a b : list A) (x : A) :
  (a ++ b ++ [x])%list <> [].
Proof.
  intros H. apply app_eq_nil in H as [_ H].
  apply app_eq_nil in H as [_ H]. discriminate.
Qed.

(** Each generator emits at most 3 lines.  The sentiment, platform and
    media-type generators emit nothing exactly for the empty dataset, the
    location generator exactly when no record has a location, and the trend
    generator exactly when the dataset has fewer than 2 records or no record
    has a date. *)
Theorem insights_when_empty (df : Dataset) :
  (get_sentiment_insights df = [] <-> df = [])
  /\ (get_platform_insights df = [] <-> df = [])
  /\ (get_media_type_insights df = [] <-> df = [])
  /\ (get_location_insights df = [] <-> forall r, In r df -> location r = None)
  /\ (get_engagement_trend_insights df = [] <->
      (List.length df < 2)%nat \/ forall r, In r df -> date r = None)
  /\ (List.length (get_sentiment_insights df) <= 3
      /\ List.length (get_platform_insights df) <= 3
      /\ List.length (get_media_type_insights df) <= 3
      /\ List.length (get_location_insights df) <= 3
      /\ List.length (get_engagement_trend_insights df) <= 3)%nat.
Proof.
  split; [|split; [|split; [|split; [|split]]]].
  - unfold get_sentiment_insights. destruct df as [|r df]; [tauto|].
    split; [intros H; now apply tail_line_not_nil in H | discriminate].
  - unfold get_platform_insights. destruct df as [|r df]; [tauto|].
    split; [intros H; now apply tail_line_not_nil in H | discriminate].
  - unfold get_media_type_insights. destruct df as [|r df]; [tauto|].
    split; [intros H; now apply tail_line_not_nil in H | discriminate].
  - apply get_location_insights_nil_iff.
  - unfold get_engagement_trend_insights.
    rewrite <- (groupby_sum_nil_iff Z.compare date df Z.compare_eq_iff).
    fold (engagement_by_date df).
    destruct (List.length df <? 2)%nat eqn:El.
    + apply Nat.ltb_lt in El. tauto.
    + apply Nat.ltb_ge in El.
      destruct (idxmax (engagement_by_date df)) as [[p v]|] eqn:Em.
      * split; [discriminate|]. intros [Hl | He]; [lia|].
        rewrite He in Em. discriminate.
      * apply idxmax_None in Em. tauto.
  - repeat split.
    + unfold get_sentiment_insights. destruct df as [|r df]; [simpl; lia|].
      rewrite !length_app.
      destruct (sort_values_desc (value_counts (map sentiment (r :: df))))
        as [|[k n] l]; [simpl; lia|].
      destruct (2 <? _)%nat; simpl; lia.
    + unfold get_platform_insights. destruct df as [|r df]; [simpl; lia|].
      rewrite !length_app.
      destruct (platform_engagements (r :: df)) as [|[k n] l]; [simpl; lia|].
      destruct (1 <? _)%nat; simpl; lia.
    + unfold get_media_type_insights. destruct df as [|r df]; [simpl; lia|].
      rewrite !length_app.
      destruct (sort_values_desc (value_counts (map media_type (r :: df))))
        as [|[k n] l]; [simpl; lia|].
      destruct (1 <? _)%nat; simpl; lia.
    + unfold get_location_insights. destruct df as [|r df]; [simpl; lia|].
      destruct (forallb _ _); [simpl; lia|].
      rewrite !length_app.
      destruct (top_locations (r :: df)) as [|[k n] l]; [simpl; lia|].
      destruct (1 <? _)%nat; simpl; lia.
    + unfold get_engagement_trend_insights.
      destruct (List.length df <? 2)%nat; [simpl; lia|].
      destruct (idxmax (engagement_by_date df)) as [[p v]|]; simpl; lia.
Qed.

(** ** The select boxes and the run of the script *)

Lemma leb_trans (a b c : string) :
  String.leb a b = true -> String.leb b c = true -> String.leb a c = true.
Proof.
  unfold String.leb.
  destruct (String.compare a b) eqn:Eab; try discriminate;
    destruct (String.compare b c) eqn:Ebc; try discriminate; intros _ _.
  - apply string_compare_eq in Eab, Ebc. subst.
    now rewrite (proj2 (string_compare_eq c c) eq_refl).
  - apply string_compare_eq in Eab. subst. now rewrite Ebc.
  - apply string_compare_eq in Ebc. subst. now rewrite Eab.
  - now rewrite (string_compare_trans a b c Eab Ebc).
Qed.

Lemma insert_sorted_perm (x : string) (l : list string) :
  Permutation (insert_sorted x l) (x :: l).
Proof.
  induction l as [|y l IH]; simpl; [reflexivity|].
  destruct (String.leb x y); [reflexivity|].
  rewrite IH. apply perm_swap.
Qed.

Lemma sorted_perm (l : list string) : Permutation (sorted l) l.
Proof.
  unfold sorted. induction l as [|x l IH]; simpl; [constructor|].
  rewrite insert_sorted_perm. now constructor.
Qed.

Lemma insert_sorted_sorted (x : string) (l : list string) :
  StronglySorted (fun a b => String.leb a b = true) l ->
  StronglySorted (fun a b => String.leb a b = true) (insert_sorted x l).
Proof.
  induction 1 as [|y l Hs IH Hy]; simpl.
  - repeat constructor.
  - destruct (String.leb x y) eqn:E.
    + constructor; [now constructor|]. constructor; [exact E|].
      eapply Forall_impl; [|exact Hy]. intros a Ha. now apply leb_trans with y.
    + constructor; [exact IH|].
      eapply Permutation_Forall; [symmetry; apply insert_sorted_perm|].
      constructor; [|exact Hy].
      destruct (String.leb_total x y) as [H | H]; congruence.
Qed.

Lemma sorted_sorted (l : list string) :
  StronglySorted (fun a b => String.leb a b = true) (sorted l).
Proof.
  unfold sorted. induction l as [|x l IH]; simpl; [constructor|].
  now apply insert_sorted_sorted.
Qed.

Lemma text_column_values (col : Series) :
  Forall (fun c => exists s, c = Str s) col ->
  existsb isnull (map as_category col) = false
  /\ forall s, In s (dropna (map as_category col)) <-> In (Str s) col.
Proof.
  induction 1 as [|c col [s0 ->] Hcol [IH1 IH2]]; simpl.
  - split; [reflexivity | tauto].
  - split; [exact IH1|]. intros s. rewrite IH2.
    split; intros [H | H]; auto; left; congruence.
Qed.

(** For a column of texts without nulls, the options of its select box are
    ['All'] followed by the distinct texts of the column in ascending
    order. *)
Theorem category_options_of_texts
        (cleaned_df : DataFrame) (name : string) (col : Series) :
  getitem cleaned_df name = OneColumn col ->
  Forall (fun c => exists s, c = Str s) col ->
  exists opts,
    category_options cleaned_df name = Ok (Some "All" :: map Some opts)
    /\ StronglySorted (fun a b => String.leb a b = true) opts
    /\ NoDup opts
    /\ forall s, In s opts <-> In (Str s) col.
Proof.
  intros Hg Hcol. destruct (text_column_values col Hcol) as [Hnull Hvals].
  exists (sorted (unique (dropna (map as_category col)))).
  split; [|split; [apply sorted_sorted|split]].
  - unfold category_options. rewrite Hg. unfold select_options.
    rewrite Hnull. now destruct (unique (dropna (map as_category col))).
  - eapply Permutation_NoDup; [symmetry; apply sorted_perm|].
    apply unique_NoDup.
  - intros s. split; intros H.
    + apply Hvals. apply (proj1 (unique_In _ _)).
      eapply Permutation_in; [apply sorted_perm | exact H].
    + eapply Permutation_in; [symmetry; apply sorted_perm|].
      apply (proj2 (unique_In _ _)). now apply Hvals.
Qed.

Lemma category_options_of_texts_witness :
  getitem (rename_columns example_table) "media_type"
  = OneColumn [Str "Video"; Str "Photo"]
  /\ category_options (rename_columns example_table) "media_type"
     = Ok [Some "All"; Some "Photo"; Some "Video"]
  /\ exists opts,
       category_options (rename_columns example_table) "media_type"
       = Ok (Some "All" :: map Some opts)
       /\ NoDup opts.
Proof.
  assert (Hg : getitem (rename_columns example_table) "media_type"
               = OneColumn [Str "Video"; Str "Photo"]) by reflexivity.
  assert (Hc : Forall (fun c => exists s, c = Str s) [Str "Video"; Str "Photo"])
    by (repeat constructor; eauto).
  split; [exact Hg|]. split; [reflexivity|].
  destruct (category_options_of_texts _ _ _ Hg Hc) as (opts & H1 & _ & H3 & _).
  exists opts. split; [exact H1 | exact H3].
Defined.

Lemma select_options_mixed (col : list (option string)) (s : string) :
  In None col -> In (Some s) col ->
  exists m, select_options col = Raise (TypeError m).
Proof.
  intros Hn Hs. unfold select_options.
  assert (E : existsb isnull col = true).
  { apply existsb_exists. exists None. auto. }
  rewrite E.
  assert (Hu : In s (unique (dropna col))).
  { apply (proj2 (unique_In _ _)). now apply dropna_In. }
  destruct (unique (dropna col)); [contradiction | eauto].
Qed.

Section ScriptRuns.

Variable pd : string -> option Z.   (* the parser of [pd.to_datetime] *)
Variable pn : string -> option Z.   (* the parser of [pd.to_numeric] *)

(** A category column of the cleaned table that holds both a text and a
    null ends the run of the script with an uncaught exception, raised while
    the options of the select boxes are sorted: nothing is shown after the
    success message and the sidebar header. *)
Theorem null_beside_text_ends_the_run
        (df cleaned_df : DataFrame) (shown : list st_call) (w : widgets)
        (name : string) (col : Series) (s : string) :
  clean_data pd pn df = (Some cleaned_df, shown) ->
  start_date w <= end_date w ->
  In name ["platform"; "sentiment"; "media_type"] ->
  getitem cleaned_df name = OneColumn col ->
  In Null col ->
  In (Str s) col ->
  exists e,
    script pd pn (Some df) w
    = (preamble
       ++ [st_success "CSV file uploaded and processed successfully!";
           st_sidebar_header "Filter Data";
           uncaught e])%list.
Proof.
  intros Hc Hdates Hname Hg Hnull Htext.
  assert (Hs : shown = []) by (apply clean_data_Some in Hc; tauto).
  subst shown.
  assert (Hraise : exists m, category_options cleaned_df name
                             = Raise (TypeError m)).
  { unfold category_options. rewrite Hg.
    apply select_options_mixed with (s := s).
    - change None with (as_category Null). now apply in_map.
    - change (Some s) with (as_category (Str s)). now apply in_map. }
  destruct Hraise as [m Hraise].
  assert (Hbind : exists e,
             (_ <- category_options cleaned_df "platform" ;;
              _ <- category_options cleaned_df "sentiment" ;;
              category_options cleaned_df "media_type") = Raise e).
  { destruct Hname as [<- | [<- | [<- | []]]].
    - rewrite Hraise. simpl. eauto.
    - destruct (category_options cleaned_df "platform"); simpl; [|eauto].
      rewrite Hraise. simpl. eauto.
    - destruct (category_options cleaned_df "platform"); simpl; [|eauto].
      destruct (category_options cleaned_df "sentiment"); simpl; [|eauto].
      rewrite Hraise. eauto. }
  destruct Hbind as [e Hbind]. exists e.
  unfold script. rewrite Hc. unfold render.
  assert (El : (end_date w <? start_date w) = false) by (apply Z.ltb_ge; lia).
  rewrite El, Hbind. reflexivity.
Qed.

(** The script shows a chart only when [clean_data] has returned a table,
    the start date is not after the end date, and the filter has kept a
    record. *)
Theorem charts_need_a_filtered_record
        (uploaded_file : option DataFrame) (w : widgets) (f : figure) :
  In (st_plotly_chart f) (script pd pn uploaded_file w) ->
  exists df cleaned_df,
    uploaded_file = Some df
    /\ clean_data pd pn df = (Some cleaned_df, [])
    /\ start_date w <= end_date w
    /\ filtered_df (rows_of cleaned_df) w <> [].
Proof.
  unfold script. intros H. apply in_app_or in H as [H | H].
  { simpl in H. intuition discriminate. }
  destruct uploaded_file as [df|]; [|simpl in H; intuition discriminate].
  destruct (clean_data pd pn df) as [[cdf|] shown] eqn:Ec.
  - pose proof (clean_data_Some pd pn _ _ _ Ec) as (_ & _ & ->).
    exists df, cdf. split; [reflexivity|]. split; [exact Ec|].
    simpl in H. destruct H as [H | [H | H]]; try discriminate.
    destruct (end_date w <? start_date w) eqn:El;
      [simpl in H; intuition discriminate|].
    apply Z.ltb_ge in El. split; [exact El|].
    destruct (_ <- category_options cdf "platform" ;; _);
      [|simpl in H; intuition discriminate].
    destruct (filtered_df (rows_of cdf) w);
      [simpl in H; intuition discriminate | discriminate].
  - exfalso. unfold clean_data in Ec.
    destruct (missing_columns (rename_columns df)).
    + destruct (convert_types pd pn (rename_columns df)); [discriminate|].
      injection Ec as <-. simpl in H. intuition discriminate.
    + injection Ec as <-. simpl in H. intuition discriminate.
Qed.

End ScriptRuns.

Lemma null_beside_text_ends_the_run_witness :
  exists cleaned_df e,
    clean_data iso_date decimal_integer table_null_platform = (Some cleaned_df, [])
    /\ getitem cleaned_df "platform" = OneColumn [Str "X"; Null]
    /\ script iso_date decimal_integer (Some table_null_platform) example_widgets
       = (preamble
          ++ [st_success "CSV file uploaded and processed successfully!";
              st_sidebar_header "Filter Data";
              uncaught e])%list.
Proof.
  eexists.
  assert (Hc : clean_data iso_date decimal_integer table_null_platform
               = (Some _, [])) by (vm_compute; reflexivity).
  assert (Hd : start_date example_widgets <= end_date example_widgets)
    by (vm_compute; discriminate).
  destruct (null_beside_text_ends_the_run iso_date decimal_integer
              _ _ _ example_widgets "platform" [Str "X"; Null] "X"
              Hc Hd (or_introl eq_refl) eq_refl
              (or_intror (or_introl eq_refl)) (or_introl eq_refl))
    as [e He].
  exists e. split; [exact Hc|]. split; [reflexivity | exact He].
Defined.

Lemma charts_need_a_filtered_record_witness :
  In (st_plotly_chart (px_bar ["X"; "Y"] [10; 5]))
     (script iso_date decimal_integer (Some example_table) example_widgets)
  /\ exists cleaned_df,
       clean_data iso_date decimal_integer example_table = (Some cleaned_df, [])
       /\ filtered_df (rows_of cleaned_df) example_widgets <> [].
Proof.
  assert (H : In (st_plotly_chart (px_bar ["X"; "Y"] [10; 5]))
                 (script iso_date decimal_integer (Some example_table)
                    example_widgets)).
  { vm_compute. repeat (first [left; reflexivity | right]). }
  split; [exact H|].
  destruct (charts_need_a_filtered_record iso_date decimal_integer _ _ _ H)
    as (df & cdf & Hup & Hc & _ & Hf).
  injection Hup as <-. exists cdf. split; [exact Hc | exact Hf].
Defined.

(** ** Ambiguous columns *)

(** When several columns have the normalized name [date], or several the
    normalized name [engagements], [clean_data] returns no table. *)
Theorem ambiguous_column_rejects_table
        (pd pn : string -> option Z) (df : DataFrame) (cols : list Series) :
  getitem (rename_columns df) "date" = Frame cols
  \/ getitem (rename_columns df) "engagements" = Frame cols ->
  exists msg, clean_data pd pn df = (None, [msg]).
Proof.
  intros H. unfold clean_data.
  destruct (missing_columns (rename_columns df)); [|eauto].
  destruct (convert_types pd pn (rename_columns df)) as [df'|e] eqn:Ec; [|eauto].
  exfalso.
  destruct (convert_types_columns pd pn _ _ Ec)
    as (d0 & e0 & _ & _ & H1 & H2 & _).
  destruct H as [H | H]; congruence.
Qed.

Lemma ambiguous_column_rejects_table_witness :
  (exists cols, getitem (rename_columns table_two_dates) "date" = Frame cols)
  /\ clean_data iso_date decimal_integer table_two_dates
     = (None, [st_error_processing NotOneDimensional])
  /\ exists msg, clean_data iso_date decimal_integer table_two_dates
                 = (None, [msg]).
Proof.
  assert (H : getitem (rename_columns table_two_dates) "date"
              = Frame [[Str "2024-01-01"; Str "2024-01-01"];
                       [Str "2024-01-01"; Str "2024-01-01"]]) by reflexivity.
  split; [eexists; exact H|]. split; [reflexivity|].
  exact (ambiguous_column_rejects_table iso_date decimal_integer
           table_two_dates _ (or_introl H)).
Defined.
